(** * cfn-sphere: the CloudFormation connector

    A shallow embedding of [cfn_sphere/connector/cloudformation.py]:
    the template loader ([CloudFormationTemplate]) and the stack
    provisioner with its completion-detection loop ([CloudFormation]).

    The interpreter's world (clock, log, files opened, requests sent) is
    threaded explicitly; exceptions are values of [outcome]. *)

From Stdlib Require Import String Ascii List ZArith NArith Bool Lia.
Import ListNotations.
Open Scope string_scope.

(** ** Python strings *)

Module Str.

(** [s.startswith(p)] *)
Fixpoint startswith (s p : string) {struct p} : bool :=
  match p with
  | EmptyString => true
  | String a p' =>
      match s with
      | EmptyString => false
      | String b s' => Ascii.eqb a b && startswith s' p'
      end
  end.

(** [s.endswith(suffix)]: some tail of [s] is [suffix]. *)
Fixpoint endswith (s suffix : string) : bool :=
  if String.eqb s suffix then true
  else match s with
       | EmptyString => false
       | String _ s' => endswith s' suffix
       end.

Definition lower_ascii (c : ascii) : ascii :=
  let n := nat_of_ascii c in
  if (65 <=? n)%nat && (n <=? 90)%nat then ascii_of_nat (n + 32) else c.

(** [s.lower()] on a byte string *)
Fixpoint lower (s : string) : string :=
  match s with
  | EmptyString => EmptyString
  | String c s' => String (lower_ascii c) (lower s')
  end.

(** [x in l] for a list of strings (compares with [==]) *)
Definition mem (x : string) (l : list string) : bool :=
  existsb (String.eqb x) l.

(** A [str] object.  [==] compares [ob_val]; [is] compares [ob_id],
    the identity of the object. *)
Record object := { ob_id : nat; ob_val : string }.

Definition py_eq (a b : object) : bool := String.eqb (ob_val a) (ob_val b).
Definition py_is (a b : object) : bool := Nat.eqb (ob_id a) (ob_id b).

End Str.

(** ** Exceptions and results *)

Inductive exn : Type :=
| ValueError (msg : string)
| IOError (strerror : string)
| AttributeError (attr : string)
| NotImplementedError
| BotoServerError (message : string)
| AWSConnectionError (msg : string)
| OtherError (name : string).

(** [e.strerror]: only the [EnvironmentError] family has the attribute. *)
Definition exn_strerror (e : exn) : option string :=
  match e with
  | IOError s => Some s
  | _ => None
  end.

Inductive outcome (A : Type) : Type :=
| Returned (a : A)
| Raised (e : exn).
Arguments Returned {A} a.
Arguments Raised {A} e.

(** What a Python function hands back to its caller. *)
Inductive pyvalue : Type :=
| PyNone
| PyBool (b : bool).

(** [bool(v)] *)
Definition truthy (v : pyvalue) : bool :=
  match v with
  | PyNone => false
  | PyBool b => b
  end.

(** ** Logging *)

Inductive level : Type := DEBUG | INFO | WARN | ERROR.
Definition LogRecord : Type := (level * string)%type.

(** ** Provisioning events *)

Record StackEvent := {
  event_id : string;
  logical_resource_id : string;
  resource_type : Str.object;
  resource_status : string;
  resource_status_reason : option string
}.

(** ["{0}".format(x)] where [x] may be [None] *)
Definition fmt_opt (o : option string) : string :=
  match o with
  | Some s => s
  | None => "None"
  end.

(** The string literal of line 111, a constant of the module's code
    object: one object, created when the module is loaded. *)
Definition STACK_TYPE : Str.object :=
  {| Str.ob_id := 0; Str.ob_val := "AWS::CloudFormation::Stack" |}.

(** The [if]/[elif] chain of [wait_to_complete] (lines 111-127) for one
    event: the log records written and the value returned, if any. *)
Definition classify (event : StackEvent) : list LogRecord * option bool :=
  let status := resource_status event in
  let name := logical_resource_id event in
  if Str.py_is (resource_type event) STACK_TYPE
     && Str.endswith status "CREATE_COMPLETE" then
    ([(INFO, "Stack " ++ name ++ " created!")], Some true)
  else if Str.endswith status "CREATE_COMPLETE" then
    ([(INFO, "Created " ++ name)], None)
  else if Str.endswith status "CREATE_FAILED" then
    ([(ERROR, "Could not create " ++ name ++ ": "
                ++ fmt_opt (resource_status_reason event))], None)
  else if Str.endswith status "ROLLBACK_IN_PROGRESS" then
    ([(WARN, "Rolling back " ++ name)], None)
  else if Str.endswith status "ROLLBACK_COMPLETE" then
    ([(ERROR, "Rollback of " ++ name ++ " completed")], Some false)
  else if Str.endswith status "ROLLBACK_FAILED" then
    ([(ERROR, "Rollback of " ++ name ++ " failed")], Some false)
  else ([], None).

(** The state the [for] loop works on: the local list [seen_events] and
    the logger's output so far. *)
Record Scan := {
  seen_events : list string;
  scan_log : list LogRecord
}.

(** Body of the [for] loop (lines 109-127) for one event. *)
Definition process_event (event : StackEvent) (sc : Scan) : Scan * option bool :=
  if negb (Str.mem (event_id event) (seen_events sc)) then
    let (lines, ret) := classify event in
    ({| seen_events := seen_events sc ++ [event_id event];
        scan_log := scan_log sc ++ lines |}, ret)
  else (sc, None).

(** The [for] loop (line 108) over one fetched batch; a [return] inside
    the body leaves the remaining events untouched. *)
Fixpoint process_events (events : list StackEvent) (sc : Scan) : Scan * option bool :=
  match events with
  | [] => (sc, None)
  | event :: rest =>
      match process_event event sc with
      | (sc', Some b) => (sc', Some b)
      | (sc', None) => process_events rest sc'
      end
  end.

(** ** The host: what the interpreter and its libraries provide *)

Definition Params : Type := list (string * string).

(** The [json] module and [str()] of the parameters, opaque to this
    code.  [json_loads] gives [None] where [json.loads] raises
    [ValueError]. *)
Class Host := {
  Document : Type;
  json_loads : string -> option Document;
  json_dumps : Document -> string;
  doc_truthy : Document -> bool;
  str_of_params : Params -> string
}.

(** Files: [os.getcwd()] and [open(path, 'r').read()]. *)
Record FileSystem := {
  getcwd : string;
  read_file : string -> outcome string
}.

(** The boto connection: the reply to a create request, and to the
    [n]-th call of [describe_stack_events] together with the time the
    call takes. *)
Record Connection := {
  create_stack_reply : string -> string -> Params -> outcome unit;
  describe_stack_events_reply : string -> nat -> N * outcome (list StackEvent)
}.

(** Everything the code reads or changes outside its own variables. *)
Record World := {
  clock : Z;                              (* time.time() *)
  logged : list LogRecord;                (* self.logger *)
  opened : list string;                   (* paths given to open() *)
  requests : list (string * string * Params);  (* create requests sent *)
  fetches : nat;                          (* describe_stack_events calls *)
  sleeps : nat                            (* time.sleep calls *)
}.

Definition log (l : level) (msg : string) (w : World) : World :=
  {| clock := clock w; logged := logged w ++ [(l, msg)]; opened := opened w;
     requests := requests w; fetches := fetches w; sleeps := sleeps w |}.

Definition set_logged (lg : list LogRecord) (w : World) : World :=
  {| clock := clock w; logged := lg; opened := opened w;
     requests := requests w; fetches := fetches w; sleeps := sleeps w |}.

Definition open_path (path : string) (w : World) : World :=
  {| clock := clock w; logged := logged w; opened := opened w ++ [path];
     requests := requests w; fetches := fetches w; sleeps := sleeps w |}.

Definition send_request (r : string * string * Params) (w : World) : World :=
  {| clock := clock w; logged := logged w; opened := opened w;
     requests := requests w ++ [r]; fetches := fetches w; sleeps := sleeps w |}.

Definition fetched (delay : N) (w : World) : World :=
  {| clock := clock w + Z.of_N delay; logged := logged w; opened := opened w;
     requests := requests w; fetches := S (fetches w); sleeps := sleeps w |}.

(** [time.sleep(secs)] *)
Definition sleep (secs : Z) (w : World) : World :=
  {| clock := clock w + secs; logged := logged w; opened := opened w;
     requests := requests w; fetches := fetches w; sleeps := S (sleeps w) |}.

(** ** CloudFormationTemplate *)

Section Template.
Context `{Host}.

Record CloudFormationTemplate := {
  config_dir : option string;
  url : string;
  body : Document
}.

Definition get_template_body (t : CloudFormationTemplate) : Document := body t.

(** [os.path.isabs] and [os.path.join] (posixpath) *)
Definition isabs (path : string) : bool := Str.startswith path "/".

Definition path_join (a b : string) : string :=
  if isabs b then b
  else if String.eqb a "" || Str.endswith a "/" then a ++ b
  else a ++ "/" ++ b.

(** truth value of [self.config_dir] *)
Definition dir_truthy (d : option string) : bool :=
  match d with
  | Some s => negb (String.eqb s "")
  | None => false
  end.

Definition _s3_get_template (url : string) (w : World) : outcome Document * World :=
  (Raised NotImplementedError, w).

(** Both [except] clauses of [_fs_get_template] (lines 43-49) have the
    same body: format [e.strerror] into an error record, then re-raise.
    The attribute lookup comes first; when it fails, its
    [AttributeError] leaves the handler and nothing is logged. *)
Definition fs_handler (url : string) (e : exn) (w : World) : outcome Document * World :=
  match e with
  | ValueError _ | IOError _ =>
      match exn_strerror e with
      | Some s =>
          (Raised e, log ERROR ("Could not load template from " ++ url ++ ": " ++ s) w)
      | None => (Raised (AttributeError "strerror"), w)
      end
  | _ => (Raised e, w)
  end.

(** Lines 37-38: a relative [url] is joined to a configured directory. *)
Definition resolve (dir : option string) (url : string) : string :=
  match dir with
  | Some d => if negb (isabs url) && dir_truthy dir then path_join d url else url
  | None => url
  end.

Definition _fs_get_template (fs : FileSystem) (dir : option string) (url : string)
    (w : World) : outcome Document * World :=
  let url := resolve dir url in
  let w := open_path url w in
  match read_file fs url with
  | Returned content =>
      match json_loads content with
      | Some doc => (Returned doc, w)
      | None => fs_handler url (ValueError "No JSON object could be decoded") w
      end
  | Raised e => fs_handler url e w
  end.

Definition _load_template (fs : FileSystem) (dir : option string) (url : string)
    (w : World) : outcome Document * World :=
  let w := log DEBUG ("Working in " ++ getcwd fs) w in
  if Str.startswith (Str.lower url) "s3://" then _s3_get_template url w
  else _fs_get_template fs dir url w.

(** [CloudFormationTemplate.__init__] *)
Definition new_template (fs : FileSystem) (template_url : string)
    (template_body : option Document) (dir : option string) (w : World)
    : outcome CloudFormationTemplate * World :=
  match template_body with
  | Some b =>
      if doc_truthy b
      then (Returned {| config_dir := dir; url := template_url; body := b |}, w)
      else match _load_template fs dir template_url w with
           | (Returned b', w') =>
               (Returned {| config_dir := dir; url := template_url; body := b' |}, w')
           | (Raised e, w') => (Raised e, w')
           end
  | None =>
      match _load_template fs dir template_url w with
      | (Returned b', w') =>
          (Returned {| config_dir := dir; url := template_url; body := b' |}, w')
      | (Raised e, w') => (Raised e, w')
      end
  end.

End Template.

(** ** CloudFormation: the provisioner *)

Section Provisioner.
Context `{Host}.

(** What one pass of the [while] body (lines 108-128) ends in. *)
Inductive pass : Type :=
| Return_ (b : bool)             (* a [return] inside the [for] loop *)
| Raise_ (e : exn)               (* describe_stack_events raised *)
| Again (seen : list string).    (* slept; back to the [while] test *)

(** One pass: fetch the events, run the [for] loop, sleep 10. *)
Definition poll (conn : Connection) (stack_name : string) (seen : list string)
    (w : World) : pass * World :=
  let (delay, reply) := describe_stack_events_reply conn stack_name (fetches w) in
  let w := fetched delay w in
  match reply with
  | Raised e => (Raise_ e, w)
  | Returned events =>
      match process_events events {| seen_events := seen; scan_log := logged w |} with
      | (sc, Some b) => (Return_ b, set_logged (scan_log sc) w)
      | (sc, None) => (Again (seen_events sc), sleep 10%Z (set_logged (scan_log sc) w))
      end
  end.

(** The [while] loop (line 107), [deadline] being [start + timeout].
    [fuel] bounds the number of passes; [None] is fuel run out. *)
Fixpoint wait_loop (fuel : nat) (conn : Connection) (stack_name : string)
    (deadline : Z) (seen : list string) (w : World)
    : option (outcome bool * World) :=
  match fuel with
  | O => None
  | S fuel' =>
      if (clock w <? deadline)%Z then
        match poll conn stack_name seen w with
        | (Return_ b, w') => Some (Returned b, w')
        | (Raise_ e, w') => Some (Raised e, w')
        | (Again seen', w') => wait_loop fuel' conn stack_name deadline seen' w'
        end
      else Some (Returned false, w)
  end.

(** Passes the loop can make within [timeout]: each takes 10 at least. *)
Definition passes (timeout : Z) : nat := Z.to_nat ((timeout + 9) / 10)%Z.

Definition wait_to_complete (conn : Connection) (stack_name : string)
    (timeout : Z) (w : World) : option (outcome bool * World) :=
  let seen_events := [] in
  let start := clock w in
  wait_loop (S (passes timeout)) conn stack_name (start + timeout)%Z seen_events w.

(** The [except BotoServerError as e] clause of [create_stack]. *)
Definition create_handler (stack_name : string) (e : exn) (w : World)
    : outcome pyvalue * World :=
  match e with
  | BotoServerError message =>
      (Returned PyNone,
       log ERROR ("Could not create stack " ++ stack_name
                  ++ ". Cloudformation API response: " ++ message) w)
  | _ => (Raised e, w)
  end.

(** [create_stack] (lines 89-101).  The [assert isinstance] of line 90
    holds by the type of [template]; the value of [wait_to_complete] is
    not used, and the function ends without a [return]. *)
Definition create_stack (conn : Connection) (stack_name : string)
    (template : CloudFormationTemplate) (parameters : Params) (w : World)
    : option (outcome pyvalue * World) :=
  let w := log INFO ("Creating stack " ++ stack_name ++ " from template "
                     ++ url template ++ " with parameters: "
                     ++ str_of_params parameters) w in
  let body := json_dumps (get_template_body template) in
  let w := send_request (stack_name, body, parameters) w in
  match create_stack_reply conn stack_name body parameters with
  | Raised e => Some (create_handler stack_name e w)
  | Returned tt =>
      match wait_to_complete conn stack_name 600%Z w with
      | None => None
      | Some (Returned _, w') => Some (Returned PyNone, w')
      | Some (Raised e, w') => Some (create_handler stack_name e w')
      end
  end.

End Provisioner.

(** Names for what [create_stack] leaves in the world. *)
Section CreateRecords.
Context `{Host}.
Variable stack_name : string.
Variable template : CloudFormationTemplate.
Variable parameters : Params.

(** The world when the create request has gone out. *)
Definition submitted (w : World) : World :=
  send_request (stack_name, json_dumps (get_template_body template), parameters)
    (log INFO ("Creating stack " ++ stack_name ++ " from template "
               ++ url template ++ " with parameters: "
               ++ str_of_params parameters) w).

Definition rejection (message : string) : LogRecord :=
  (ERROR, "Could not create stack " ++ stack_name
          ++ ". Cloudformation API response: " ++ message).

End CreateRecords.

(** ** Providers the properties speak about *)

(** No fetch raises and no event delivered makes the loop return. *)
Definition quiet (conn : Connection) (stack_name : string) : Prop :=
  forall n, exists delay events,
    describe_stack_events_reply conn stack_name n = (delay, Returned events)
    /\ Forall (fun e => snd (classify e) = None) events.

(** Every fetch answers at once. *)
Definition punctual (conn : Connection) (stack_name : string) : Prop :=
  forall n, fst (describe_stack_events_reply conn stack_name n) = 0%N.

(** ** CloudFormation: the registry of stacks *)

Module Registry.

(** A stack as [describe_stacks] lists it; parameters and outputs are
    passed on as they are. *)
Record Stack := {
  stack_name : string;
  parameters : Params;
  outputs : Params
}.

(** What may stand where the code expects the stacks: [None], a boto
    [ResultSet], or another sequence. *)
Inductive pyobj : Type :=
| None_
| ResultSet (items : list Stack)
| PlainList (items : list Stack).

(** [for stack in o] *)
Definition iterate (o : pyobj) : list Stack :=
  match o with
  | None_ => []
  | ResultSet l => l
  | PlainList l => l
  end.

(** [bool(o)]: [None] and the empty sequences are false. *)
Definition obj_truthy (o : pyobj) : bool :=
  match iterate o with
  | [] => false
  | _ :: _ => true
  end.

(** [isinstance(o, ResultSet)] *)
Definition is_ResultSet (o : pyobj) : bool :=
  match o with
  | ResultSet _ => true
  | _ => false
  end.

(** What [connect_to_region] hands out: the connection, the key it
    signs with, and its answer to [describe_stacks]. *)
Record Endpoint := {
  endpoint_conn : Connection;
  aws_access_key_id : string;
  describe_stacks_reply : outcome pyobj
}.

(** The world of the registry: the common one, and the number of
    [describe_stacks] calls made. *)
Record Trace := {
  world : World;
  describes : nat
}.

Definition trace_log (l : level) (msg : string) (t : Trace) : Trace :=
  {| world := log l msg (world t); describes := describes t |}.

Definition described (t : Trace) : Trace :=
  {| world := world t; describes := S (describes t) |}.

(** The fields of a [CloudFormation] object. *)
Record CloudFormation := {
  conn : Endpoint;
  stacks : pyobj
}.

Definition AssertionError : exn := OtherError "AssertionError".

(** [_load_stacks] (lines 76-78): the value assigned to [self.stacks]. *)
Definition _load_stacks (ep : Endpoint) (t : Trace) : outcome pyobj * Trace :=
  let t := described t in
  match describe_stacks_reply ep with
  | Raised e => (Raised e, t)
  | Returned o =>
      if is_ResultSet o then (Returned o, t) else (Raised AssertionError, t)
  end.

(** [CloudFormation.__init__] (lines 56-74); [connect] is boto's
    [cloudformation.connect_to_region], [None] for a region it does not
    know. *)
Definition init (connect : string -> option Endpoint) (region : string)
    (given : pyobj) (t : Trace) : outcome CloudFormation * Trace :=
  match connect region with
  | None =>
      (Raised (AWSConnectionError "Got None connection object"),
       trace_log ERROR ("Could not connect to cloudformation API in " ++ region
                        ++ ". Invalid region?") t)
  | Some ep =>
      let t := trace_log DEBUG ("Connected to cloudformation API at " ++ region
                                ++ " with access key id: " ++ aws_access_key_id ep) t in
      if negb (obj_truthy given) then
        match _load_stacks ep t with
        | (Raised e, t') => (Raised e, t')
        | (Returned o, t') =>
            if is_ResultSet o then (Returned {| conn := ep; stacks := o |}, t')
            else (Raised AssertionError, t')
        end
      else if is_ResultSet given then (Returned {| conn := ep; stacks := given |}, t)
      else (Raised AssertionError, t)
  end.

Definition get_stacks (self : CloudFormation) : pyobj := stacks self.

(** One value of the dict of [get_stacks_dict]:
    [{"parameters": ..., "outputs": ...}]. *)
Record Entry := {
  entry_parameters : Params;
  entry_outputs : Params
}.

(** A dict with string keys: [d[k] = v] and [d.get(k)]. *)
Fixpoint dict_set {V : Type} (k : string) (v : V) (d : list (string * V))
    : list (string * V) :=
  match d with
  | [] => [(k, v)]
  | (k', v') :: d' =>
      if String.eqb k k' then (k, v) :: d' else (k', v') :: dict_set k v d'
  end.

Fixpoint dict_get {V : Type} (k : string) (d : list (string * V)) : option V :=
  match d with
  | [] => None
  | (k', v') :: d' => if String.eqb k k' then Some v' else dict_get k d'
  end.

Definition entry_of (stack : Stack) : Entry :=
  {| entry_parameters := parameters stack; entry_outputs := outputs stack |}.

(** The [for] loop of [get_stacks_dict] (lines 85-86), run on the dict
    [stacks_dict]. *)
Definition stacks_into (l : list Stack) (stacks_dict : list (string * Entry))
    : list (string * Entry) :=
  fold_left (fun stacks_dict stack =>
               dict_set (stack_name stack) (entry_of stack) stacks_dict)
            l stacks_dict.

(** [get_stacks_dict] (lines 83-87) *)
Definition get_stacks_dict (self : CloudFormation) : list (string * Entry) :=
  let stacks_dict := [] in
  stacks_into (iterate (stacks self)) stacks_dict.

End Registry.

(** ** A sample host, provider and file system, to run the code on *)

Module Sample.

(** Documents are the texts written in braces. *)
Definition host : Host :=
  {| Document := string;
     json_loads := fun s =>
       if Str.startswith s "{" && Str.endswith s "}" then Some s else None;
     json_dumps := fun d => d;
     doc_truthy := fun d => negb (String.eqb d "{}");
     str_of_params := fun ps =>
       String.concat ", " (map (fun kv => fst kv ++ "=" ++ snd kv) ps) |}.

(** A type string as boto builds it from the provider's response: an
    object of its own, with the contents of the literal. *)
Definition parsed_stack_type : Str.object :=
  {| Str.ob_id := 7; Str.ob_val := "AWS::CloudFormation::Stack" |}.

Definition bucket_type : Str.object :=
  {| Str.ob_id := 8; Str.ob_val := "AWS::S3::Bucket" |}.

Definition stack_done : StackEvent :=
  {| event_id := "ev-4"; logical_resource_id := "web";
     resource_type := parsed_stack_type;
     resource_status := "CREATE_COMPLETE"; resource_status_reason := None |}.

(** The same event, its type being the literal object itself. *)
Definition stack_done_literal : StackEvent :=
  {| event_id := "ev-4"; logical_resource_id := "web";
     resource_type := STACK_TYPE;
     resource_status := "CREATE_COMPLETE"; resource_status_reason := None |}.

Definition bucket_done : StackEvent :=
  {| event_id := "ev-1"; logical_resource_id := "assets";
     resource_type := bucket_type;
     resource_status := "CREATE_COMPLETE"; resource_status_reason := None |}.

Definition bucket_failed : StackEvent :=
  {| event_id := "ev-2"; logical_resource_id := "assets";
     resource_type := bucket_type;
     resource_status := "CREATE_FAILED";
     resource_status_reason := Some "Bucket name already exists" |}.

Definition rolled_back : StackEvent :=
  {| event_id := "ev-3"; logical_resource_id := "web";
     resource_type := parsed_stack_type;
     resource_status := "ROLLBACK_COMPLETE"; resource_status_reason := None |}.

(** The provider accepts every request and answers every fetch at
    once with the same events. *)
Definition accepting (events : list StackEvent) : Connection :=
  {| create_stack_reply := fun _ _ _ => Returned tt;
     describe_stack_events_reply := fun _ _ => (0%N, Returned events) |}.

(** The provider rejects every request. *)
Definition rejecting (message : string) : Connection :=
  {| create_stack_reply := fun _ _ _ => Raised (BotoServerError message);
     describe_stack_events_reply := fun _ _ => (0%N, Returned []) |}.

(** The provider accepts; its fetch number [k] fails. *)
Definition failing_fetch (k : nat) (message : string) : Connection :=
  {| create_stack_reply := fun _ _ _ => Returned tt;
     describe_stack_events_reply := fun _ n =>
       if Nat.eqb n k then (0%N, Raised (BotoServerError message))
       else (0%N, Returned [bucket_done]) |}.

Definition files : FileSystem :=
  {| getcwd := "/work";
     read_file := fun path =>
       if String.eqb path "/etc/cfn/web.json" then Returned "{}"
       else if String.eqb path "/etc/cfn/broken.json" then Returned "{"
       else Raised (IOError "No such file or directory") |}.

Definition boot : World :=
  {| clock := 0; logged := []; opened := []; requests := [];
     fetches := 0; sleeps := 0 |}.

Definition web_template : @CloudFormationTemplate host :=
  @Build_CloudFormationTemplate host None "web.json" "{}".

End Sample.

(** ** Sample stacks and regions *)

Module SampleRegistry.
Import Registry.

Definition web : Stack :=
  {| stack_name := "web"; parameters := [("Env", "prod")]; outputs := [] |}.

Definition db : Stack :=
  {| stack_name := "db"; parameters := [("Size", "small")];
     outputs := [("Host", "db.internal")] |}.

(** A second stack that goes by the name [web]. *)
Definition web_again : Stack :=
  {| stack_name := "web"; parameters := [("Env", "test")]; outputs := [] |}.

Definition ireland : Endpoint :=
  {| endpoint_conn := Sample.accepting [];
     aws_access_key_id := "AKIDEXAMPLE";
     describe_stacks_reply := Returned (ResultSet [web; db]) |}.

(** boto knows one region. *)
Definition connect (region : string) : option Endpoint :=
  if String.eqb region "eu-west-1" then Some ireland else None.

Definition start : Trace := {| world := Sample.boot; describes := 0 |}.

End SampleRegistry.

(** More events and providers to run the loop on. *)
Module SampleEvents.

Definition rollback_started : StackEvent :=
  {| event_id := "ev-5"; logical_resource_id := "web";
     resource_type := Sample.parsed_stack_type;
     resource_status := "ROLLBACK_IN_PROGRESS"; resource_status_reason := None |}.

(** The provider accepts; fetch number [k] raises [e], the others
    deliver a finished bucket. *)
Definition breaking_fetch (k : nat) (e : exn) : Connection :=
  {| create_stack_reply := fun _ _ _ => Returned tt;
     describe_stack_events_reply := fun _ n =>
       if Nat.eqb n k then (0%N, Raised e)
       else (0%N, Returned [Sample.bucket_done]) |}.

(** The provider answers the create request with [e]. *)
Definition refusing (e : exn) : Connection :=
  {| create_stack_reply := fun _ _ _ => Raised e;
     describe_stack_events_reply := fun _ _ => (0%N, Returned []) |}.

End SampleEvents.

(** * Properties *)

(** ** Strings *)

Section StrFacts.
Import Str.

Lemma endswith_refl s : endswith s s = true.
Proof. destruct s; cbn [endswith]; rewrite String.eqb_refl; reflexivity. Qed.

Lemma endswith_app pre suffix : endswith (pre ++ suffix) suffix = true.
Proof.
  induction pre as [|c pre IH]; cbn [append endswith].
  - apply endswith_refl.
  - destruct (String.eqb _ _); [reflexivity | exact IH].
Qed.

Lemma endswith_inv s suffix :
  endswith s suffix = true -> exists pre, s = pre ++ suffix.
Proof.
  induction s as [|c s IH]; cbn [endswith].
  - destruct (String.eqb_spec "" suffix) as [<-|]; [|discriminate].
    intros _. exists "". reflexivity.
  - destruct (String.eqb_spec (String c s) suffix) as [<-|_].
    + intros _. exists "". reflexivity.
    + intros E. destruct (IH E) as [pre ->]. exists (String c pre). reflexivity.
Qed.

(** Two suffixes of one string: one is a suffix of the other. *)
Lemma endswith_comparable s a b :
  endswith s a = true -> endswith s b = true ->
  endswith a b = true \/ endswith b a = true.
Proof.
  induction s as [|c s IH]; cbn [endswith].
  - destruct (String.eqb_spec "" a) as [<-|]; [|discriminate].
    destruct (String.eqb_spec "" b) as [<-|]; [|discriminate].
    intros _ _. left. reflexivity.
  - destruct (String.eqb_spec (String c s) a) as [<-|_].
    + intros _ Hb. left. exact Hb.
    + destruct (String.eqb_spec (String c s) b) as [<-|_].
      * intros Ha _. right. cbn [endswith].
        destruct (String.eqb _ _); [reflexivity | exact Ha].
      * apply IH.
Qed.

(** A status ends with one of two suffixes that are not suffixes of
    each other, not with both. *)
Lemma endswith_exclusive s a b :
  endswith a b = false -> endswith b a = false ->
  endswith s a = true -> endswith s b = false.
Proof.
  intros Hab Hba Ha. destruct (endswith s b) eqn:Hb; [|reflexivity].
  destruct (endswith_comparable s a b Ha Hb) as [E|E]; congruence.
Qed.

Lemma mem_In x l : mem x l = true <-> In x l.
Proof.
  unfold mem. rewrite existsb_exists. split.
  - intros [y [Hy E]]. apply String.eqb_eq in E. subst. exact Hy.
  - intros Hx. exists x. split; [exact Hx | apply String.eqb_refl].
Qed.

Lemma mem_app x l1 l2 : mem x (l1 ++ l2) = mem x l1 || mem x l2.
Proof. unfold mem. apply existsb_app. Qed.

Lemma mem_last x l : mem x (l ++ [x]) = true.
Proof. rewrite mem_app. simpl. rewrite String.eqb_refl, orb_true_r. reflexivity. Qed.

End StrFacts.

(** ** The event classifier *)

Section Classifier.
Import Str.

(** [excl H]: the status of [H] ends with none of the other keywords. *)
Ltac excl H :=
  repeat match goal with
  | |- context [endswith ?s ?b] =>
      lazymatch type of H with
      | endswith s b = true => fail
      | endswith s ?a = true =>
          rewrite (endswith_exclusive s a b eq_refl eq_refl H)
      end
  end.

Lemma classify_create_failed e :
  endswith (resource_status e) "CREATE_FAILED" = true ->
  classify e =
    ([(ERROR, "Could not create " ++ logical_resource_id e ++ ": "
                ++ fmt_opt (resource_status_reason e))], None).
Proof.
  intros Hs. unfold classify. excl Hs. rewrite Hs, andb_false_r. reflexivity.
Qed.

Lemma classify_rollback_complete e :
  endswith (resource_status e) "ROLLBACK_COMPLETE" = true ->
  classify e =
    ([(ERROR, "Rollback of " ++ logical_resource_id e ++ " completed")], Some false).
Proof.
  intros Hs. unfold classify. excl Hs. rewrite Hs, andb_false_r. reflexivity.
Qed.

Lemma classify_rollback_failed e :
  endswith (resource_status e) "ROLLBACK_FAILED" = true ->
  classify e =
    ([(ERROR, "Rollback of " ++ logical_resource_id e ++ " failed")], Some false).
Proof.
  intros Hs. unfold classify. excl Hs. rewrite Hs, andb_false_r. reflexivity.
Qed.

(** The success branch is taken exactly for the literal object itself. *)
Lemma classify_true e :
  snd (classify e) = Some true <->
  py_is (resource_type e) STACK_TYPE = true
  /\ endswith (resource_status e) "CREATE_COMPLETE" = true.
Proof.
  unfold classify.
  destruct (py_is _ _); cbn [andb];
    repeat (destruct (endswith _ _); cbn [snd]);
    split; try intros [? ?]; auto; discriminate.
Qed.

(** The records an event adds to the log: at most one. *)
Lemma classify_one_record e : (length (fst (classify e)) <= 1)%nat.
Proof.
  unfold classify.
  destruct (py_is _ _ && _); [simpl; lia|].
  repeat (destruct (endswith _ _); [simpl; lia|]). simpl. lia.
Qed.

End Classifier.

(** ** The [for] loop and the seen-event list *)

Section Scanning.
Import Str.

Lemma process_event_seen e sc :
  mem (event_id e) (seen_events sc) = true -> process_event e sc = (sc, None).
Proof. intros Hm. unfold process_event. rewrite Hm. reflexivity. Qed.

Lemma process_event_unseen e sc :
  mem (event_id e) (seen_events sc) = false ->
  process_event e sc =
    ({| seen_events := seen_events sc ++ [event_id e];
        scan_log := scan_log sc ++ fst (classify e) |}, snd (classify e)).
Proof.
  intros Hm. unfold process_event. rewrite Hm. cbn [negb].
  destruct (classify e). reflexivity.
Qed.

(** After the body has run for an event, its id is in the list. *)
Lemma process_event_marks e sc :
  mem (event_id e) (seen_events (fst (process_event e sc))) = true.
Proof.
  destruct (mem (event_id e) (seen_events sc)) eqn:Hm.
  - rewrite process_event_seen by exact Hm. exact Hm.
  - rewrite process_event_unseen by exact Hm. apply mem_last.
Qed.

Lemma process_event_grows e sc :
  exists new, seen_events (fst (process_event e sc)) = (seen_events sc ++ new)%list.
Proof.
  destruct (mem (event_id e) (seen_events sc)) eqn:Hm.
  - rewrite process_event_seen by exact Hm. exists []. symmetry. apply app_nil_r.
  - rewrite process_event_unseen by exact Hm. eexists. reflexivity.
Qed.

Lemma process_events_grows events : forall sc,
  exists new, seen_events (fst (process_events events sc)) = (seen_events sc ++ new)%list.
Proof.
  induction events as [|e rest IH]; intros sc; cbn [process_events].
  - exists []. symmetry. apply app_nil_r.
  - destruct (process_event_grows e sc) as [n1 E1].
    destruct (process_event e sc) as [sc' [b|]]; cbn [fst] in *.
    + exists n1. exact E1.
    + destruct (IH sc') as [n2 E2]. exists (n1 ++ n2)%list.
      rewrite E2, E1. symmetry. apply app_assoc.
Qed.

Lemma process_events_app pre post : forall sc,
  process_events (pre ++ post) sc =
    match process_events pre sc with
    | (sc', Some b) => (sc', Some b)
    | (sc', None) => process_events post sc'
    end.
Proof.
  induction pre as [|e pre IH]; intros sc; cbn [app process_events].
  - reflexivity.
  - destruct (process_event e sc) as [sc' [b|]]; [reflexivity | apply IH].
Qed.

(** A batch with no event that returns leaves the loop running. *)
Lemma process_events_quiet events : forall sc,
  Forall (fun e => snd (classify e) = None) events ->
  snd (process_events events sc) = None.
Proof.
  induction events as [|e rest IH]; intros sc Hq; cbn [process_events].
  - reflexivity.
  - inversion Hq as [|? ? He Hrest]; subst.
    destruct (mem (event_id e) (seen_events sc)) eqn:Hm.
    + rewrite process_event_seen by exact Hm. apply IH, Hrest.
    + rewrite process_event_unseen by exact Hm. rewrite He. apply IH, Hrest.
Qed.

End Scanning.

(** ** The [while] loop *)

Section Waiting.
Variable conn : Connection.
Variable stack_name : string.

(** A pass that goes back to the [while] test has fetched once, slept
    once, let 10 or more pass, and only extended the seen list. *)
Lemma poll_again seen w seen' w' :
  poll conn stack_name seen w = (Again seen', w') ->
  (clock w + 10 <= clock w')%Z
  /\ clock w' = (clock w
                 + Z.of_N (fst (describe_stack_events_reply conn stack_name (fetches w)))
                 + 10)%Z
  /\ fetches w' = S (fetches w)
  /\ sleeps w' = S (sleeps w)
  /\ exists new, seen' = (seen ++ new)%list.
Proof.
  unfold poll.
  destruct (describe_stack_events_reply conn stack_name (fetches w))
    as [delay [events|e]]; [|discriminate].
  pose proof (process_events_grows events
                {| seen_events := seen; scan_log := logged (fetched delay w) |}) as G.
  destruct (process_events events _) as [sc [b|]]; [discriminate|].
  intros E. injection E as <- <-. cbn in *. repeat split; try lia. exact G.
Qed.

(** A pass that returns or raises has not slept. *)
Lemma poll_stops seen w w' :
  (exists b, poll conn stack_name seen w = (Return_ b, w'))
  \/ (exists e, poll conn stack_name seen w = (Raise_ e, w')) ->
  fetches w' = S (fetches w) /\ sleeps w' = sleeps w.
Proof.
  unfold poll.
  destruct (describe_stack_events_reply conn stack_name (fetches w))
    as [delay [events|e]].
  - destruct (process_events events _) as [sc [b|]].
    + intros [[b' E]|[e E]]; [|discriminate]. injection E as _ <-. split; reflexivity.
    + intros [[b' E]|[e E]]; discriminate.
  - intros [[b' E]|[e' E]]; [discriminate|]. injection E as _ <-. split; reflexivity.
Qed.

Lemma wait_loop_S fuel deadline seen w :
  wait_loop (S fuel) conn stack_name deadline seen w =
    if (clock w <? deadline)%Z then
      match poll conn stack_name seen w with
      | (Return_ b, w') => Some (Returned b, w')
      | (Raise_ e, w') => Some (Raised e, w')
      | (Again seen', w') => wait_loop fuel conn stack_name deadline seen' w'
      end
    else Some (Returned false, w).
Proof. reflexivity. Qed.

(** The loop ends: fuel for every 10 left until the deadline is enough. *)
Lemma wait_loop_total n : forall deadline seen w,
  (deadline - clock w <= 10 * Z.of_nat n)%Z ->
  exists r, wait_loop (S n) conn stack_name deadline seen w = Some r.
Proof.
  induction n as [|n IH]; intros deadline seen w Hn; rewrite wait_loop_S.
  - destruct (Z.ltb_spec (clock w) deadline); [lia|]. eexists. reflexivity.
  - destruct (Z.ltb_spec (clock w) deadline); [|eexists; reflexivity].
    destruct (poll conn stack_name seen w) as [[b|e|seen'] w'] eqn:P;
      try (eexists; reflexivity).
    apply poll_again in P. apply IH. lia.
Qed.

Lemma Z2Nat_nonpos z : (z <= 0)%Z -> Z.to_nat z = 0%nat.
Proof. destruct z; simpl; lia. Qed.

Lemma passes_enough timeout : (timeout <= 10 * Z.of_nat (passes timeout))%Z.
Proof.
  unfold passes.
  pose proof (Z.mul_succ_div_gt (timeout + 9) 10 ltac:(lia)).
  destruct (Z.le_gt_cases 0 ((timeout + 9) / 10)) as [Hp|Hn].
  - rewrite Z2Nat.id by exact Hp. lia.
  - rewrite Z2Nat_nonpos by lia. lia.
Qed.

(** [wait_to_complete] always comes back, with a value or an exception. *)
Lemma wait_to_complete_total timeout w :
  exists r, wait_to_complete conn stack_name timeout w = Some r.
Proof.
  unfold wait_to_complete. apply wait_loop_total.
  pose proof (passes_enough timeout). lia.
Qed.

(** With a quiet provider the loop runs into the deadline. *)
Lemma wait_loop_quiet (Hq : quiet conn stack_name) n : forall deadline seen w,
  (deadline - clock w <= 10 * Z.of_nat n)%Z ->
  exists w',
    wait_loop (S n) conn stack_name deadline seen w = Some (Returned false, w')
    /\ (deadline <= clock w')%Z /\ (clock w <= clock w')%Z
    /\ (fetches w' <= fetches w + n)%nat
    /\ (sleeps w' + fetches w = sleeps w + fetches w')%nat.
Proof.
  induction n as [|n IH]; intros deadline seen w Hn; rewrite wait_loop_S.
  - destruct (Z.ltb_spec (clock w) deadline); [lia|].
    exists w. repeat split; lia.
  - destruct (Z.ltb_spec (clock w) deadline);
      [|exists w; repeat split; lia].
    destruct (poll conn stack_name seen w) as [[b|e|seen'] w'] eqn:P.
    + exfalso. revert P. unfold poll.
      destruct (Hq (fetches w)) as (delay & events & -> & Hev).
      pose proof (process_events_quiet events
        {| seen_events := seen; scan_log := logged (fetched delay w) |} Hev) as Q.
      destruct (process_events events _) as [sc [b'|]]; cbn in Q; congruence.
    + exfalso. revert P. unfold poll.
      destruct (Hq (fetches w)) as (delay & events & -> & Hev).
      destruct (process_events events _) as [sc [b'|]]; discriminate.
    + apply poll_again in P. destruct P as (Hc & _ & Hf & Hs & _).
      destruct (IH deadline seen' w' ltac:(lia)) as (w'' & E & ? & ? & ? & ?).
      exists w''. rewrite E. repeat split; lia.
Qed.

(** With a quiet provider that answers at once, a budget of [10 * n]
    is used up by exactly [n] passes. *)
Lemma wait_loop_quiet_punctual (Hq : quiet conn stack_name) (Hp : punctual conn stack_name) n : forall seen w,
  exists w',
    wait_loop (S n) conn stack_name (clock w + 10 * Z.of_nat n)%Z seen w
      = Some (Returned false, w')
    /\ clock w' = (clock w + 10 * Z.of_nat n)%Z
    /\ fetches w' = (fetches w + n)%nat.
Proof.
  induction n as [|n IH]; intros seen w; rewrite wait_loop_S.
  - destruct (Z.ltb_spec (clock w) (clock w + 10 * Z.of_nat 0)); [lia|].
    exists w. repeat split; lia.
  - destruct (Z.ltb_spec (clock w) (clock w + 10 * Z.of_nat (S n))); [|lia].
    destruct (poll conn stack_name seen w) as [[b|e|seen'] w'] eqn:P.
    + exfalso. revert P. unfold poll.
      destruct (Hq (fetches w)) as (delay & events & -> & Hev).
      pose proof (process_events_quiet events
        {| seen_events := seen; scan_log := logged (fetched delay w) |} Hev) as Q.
      destruct (process_events events _) as [sc [b'|]]; cbn in Q; congruence.
    + exfalso. revert P. unfold poll.
      destruct (Hq (fetches w)) as (delay & events & -> & Hev).
      destruct (process_events events _) as [sc [b'|]]; discriminate.
    + apply poll_again in P. destruct P as (_ & Hc & Hf & _ & _).
      rewrite Hp in Hc.
      destruct (IH seen' w') as (w'' & E & Hc' & Hf').
      replace (clock w + 10 * Z.of_nat (S n))%Z
        with (clock w' + 10 * Z.of_nat n)%Z by lia.
      exists w''. rewrite E. repeat split; lia.
Qed.

End Waiting.

(** * The claims *)

Section Dedup.
Import Str.

Lemma process_events_keeps x events : forall sc,
  mem x (seen_events sc) = true ->
  mem x (seen_events (fst (process_events events sc))) = true.
Proof.
  intros sc Hm. destruct (process_events_grows events sc) as [new ->].
  rewrite mem_app, Hm. reflexivity.
Qed.

End Dedup.

Section BatchFacts.
Import Str.

Lemma process_events_none_marks events : forall sc sc',
  process_events events sc = (sc', None) ->
  forall e, In e events -> mem (event_id e) (seen_events sc') = true.
Proof.
  induction events as [|e0 rest IH]; intros sc sc' E e He; [destruct He|].
  cbn [process_events] in E.
  pose proof (process_event_marks e0 sc) as Hm.
  destruct (process_event e0 sc) as [sc1 [b|]]; [discriminate|]. cbn [fst] in Hm.
  destruct He as [<-|He].
  - pose proof (process_events_keeps (event_id e0) rest sc1 Hm) as K.
    rewrite E in K. exact K.
  - exact (IH sc1 sc' E e He).
Qed.

Lemma process_events_all_seen events : forall sc,
  (forall e, In e events -> mem (event_id e) (seen_events sc) = true) ->
  process_events events sc = (sc, None).
Proof.
  induction events as [|e0 rest IH]; intros sc Hall; [reflexivity|].
  cbn [process_events].
  rewrite process_event_seen by (apply Hall; left; reflexivity).
  apply IH. intros e He. apply Hall. right. exact He.
Qed.

Lemma process_event_invariant e sc :
  NoDup (seen_events sc) ->
  let sc' := fst (process_event e sc) in
  NoDup (seen_events sc')
  /\ (forall id, In id (seen_events sc') -> In id (seen_events sc) \/ event_id e = id)
  /\ (length (scan_log sc') + length (seen_events sc)
      <= length (scan_log sc) + length (seen_events sc'))%nat.
Proof.
  intros Hnd. destruct (mem (event_id e) (seen_events sc)) eqn:Hm; cbn zeta.
  - rewrite process_event_seen by exact Hm. cbn [fst].
    split; [exact Hnd|]. split; [intros id Hid; left; exact Hid | lia].
  - rewrite process_event_unseen by exact Hm. cbn [fst seen_events scan_log].
    split; [|split].
    + apply NoDup_app; [exact Hnd | repeat constructor; intros [] | ].
      intros x Hx [<-|[]]. apply mem_In in Hx. congruence.
    + intros id Hid. apply in_app_or in Hid. destruct Hid as [Hid|[<-|[]]]; auto.
    + rewrite !length_app. pose proof (classify_one_record e). cbn [length]. lia.
Qed.

End BatchFacts.

(** Events whose ids are in the seen list can be left out of a batch. *)
Section Redelivery.
Import Str.

Lemma process_events_skip_known events : forall sc known,
  (forall x, mem x known = true -> mem x (seen_events sc) = true) ->
  process_events events sc
  = process_events
      (filter (fun e => negb (mem (event_id e) known)) events) sc.
Proof.
  induction events as [|e rest IH]; intros sc known Hk; cbn [filter]; [reflexivity|].
  destruct (mem (event_id e) known) eqn:Hm; cbn [negb].
  - cbn [process_events]. rewrite process_event_seen by (apply Hk; exact Hm).
    apply IH. exact Hk.
  - cbn [process_events].
    destruct (process_event_grows e sc) as [new G].
    destruct (process_event e sc) as [sc1 [b|]]; [reflexivity|]. cbn [fst] in G.
    apply IH. intros x Hx. rewrite G, mem_app, (Hk x Hx). reflexivity.
Qed.

Variable conn : Connection.
Variable stack_name : string.
Variable events : list StackEvent.
Hypothesis Hsame : forall n, exists delay,
  describe_stack_events_reply conn stack_name n = (delay, Returned events).

(** Once a pass over the batch changes nothing, no later pass does. *)
Lemma wait_loop_settled fuel : forall deadline seen w r w',
  process_events events {| seen_events := seen; scan_log := logged w |}
  = ({| seen_events := seen; scan_log := logged w |}, None) ->
  wait_loop fuel conn stack_name deadline seen w = Some (r, w') ->
  r = Returned false /\ logged w' = logged w.
Proof.
  induction fuel as [|fuel IH]; intros deadline seen w r w' Hfix E; [discriminate|].
  rewrite wait_loop_S in E. destruct (clock w <? deadline)%Z.
  - unfold poll in E. destruct (Hsame (fetches w)) as [delay R]. rewrite R in E.
    change (logged (fetched delay w)) with (logged w) in E. rewrite Hfix in E.
    cbn [seen_events scan_log] in E.
    apply IH in E; [|exact Hfix]. exact E.
  - injection E as <- <-. split; reflexivity.
Qed.

End Redelivery.

(** C9: an event whose status ends with CREATE_FAILED does not end the
    loop.  The body of the [for] loop returns nothing for it, so the
    loop goes on with the next event of the batch; and a pass whose
    batch is this event alone ends in the sleep and goes back to the
    [while] test, that is, polling continues. *)
Theorem create_failed_keeps_waiting (e : StackEvent) :
  Str.endswith (resource_status e) "CREATE_FAILED" = true ->
  (forall sc, snd (process_event e sc) = None)
  /\ (forall sc rest,
        process_events (e :: rest) sc = process_events rest (fst (process_event e sc)))
  /\ (forall conn stack_name seen w delay,
        describe_stack_events_reply conn stack_name (fetches w) = (delay, Returned [e]) ->
        exists seen' w',
          poll conn stack_name seen w = (Again seen', w')
          /\ sleeps w' = S (sleeps w)).
Proof.
  intros Hs.
  assert (Hnone : forall sc, snd (process_event e sc) = None).
  { intros sc. destruct (Str.mem (event_id e) (seen_events sc)) eqn:Hm.
    - rewrite process_event_seen by exact Hm. reflexivity.
    - rewrite process_event_unseen by exact Hm.
      rewrite classify_create_failed by exact Hs. reflexivity. }
  split; [exact Hnone|]. split.
  - intros sc rest. cbn [process_events]. specialize (Hnone sc).
    destruct (process_event e sc) as [sc' r]. cbn in Hnone. subst r. reflexivity.
  - intros conn stack_name seen w delay E. unfold poll. rewrite E.
    cbn [process_events].
    specialize (Hnone {| seen_events := seen; scan_log := logged (fetched delay w) |}).
    destruct (process_event e _) as [sc' r]. cbn in Hnone. subst r.
    eexists. eexists. split; reflexivity.
Qed.

Lemma create_failed_keeps_waiting_witness :
  snd (process_event Sample.bucket_failed
         {| seen_events := []; scan_log := [] |}) = None.
Proof.
  apply (create_failed_keeps_waiting Sample.bucket_failed); reflexivity.
Defined.

(** C5: processing is idempotent on the event id, and the seen list only
    grows and belongs to one call of [wait_to_complete].

    For one event: when its id is not in the list, the body of the
    [for] loop puts the id at the end of the list and evaluates the
    event once (its log records, its return); when the id is in the
    list, the body changes nothing and returns nothing; so the same
    event delivered again, at once or after any further events, is a
    no-op, and a batch gives the same result with the events of known
    ids left out.

    Across polls: the list the [for] loop leaves is the very list the
    next pass of the [while] loop starts with, and it is the old list
    with ids added at its end.  So when the provider delivers the same
    events at every poll and none ends the wait, the log after the
    whole wait is the log after one pass over the events: every event
    is evaluated once, however many polls deliver it.

    Per call: [wait_to_complete] starts its loop from the empty list.
    The statement about the whole wait holds from any world, also the
    one an earlier call has left: in the second of two calls the events
    the first call has seen are evaluated anew. *)
Theorem seen_events_dedup (e : StackEvent) (sc : Scan) :
  (Str.mem (event_id e) (seen_events sc) = true -> process_event e sc = (sc, None))
  /\ (Str.mem (event_id e) (seen_events sc) = false ->
      process_event e sc
      = ({| seen_events := seen_events sc ++ [event_id e];
            scan_log := scan_log sc ++ fst (classify e) |}, snd (classify e)))
  /\ (forall between,
        let sc' := fst (process_events (e :: between) sc) in
        process_event e sc' = (sc', None))
  /\ (forall events,
        process_events events sc
        = process_events
            (filter (fun ev => negb (Str.mem (event_id ev) (seen_events sc))) events)
            sc)
  /\ (forall events,
        exists new,
          seen_events (fst (process_events events sc)) = (seen_events sc ++ new)%list)
  /\ (forall conn stack_name seen w seen' w',
        poll conn stack_name seen w = (Again seen', w') ->
        exists new, seen' = (seen ++ new)%list)
  /\ (forall conn stack_name seen w delay events sc1,
        describe_stack_events_reply conn stack_name (fetches w)
          = (delay, Returned events) ->
        process_events events {| seen_events := seen; scan_log := logged w |}
          = (sc1, None) ->
        poll conn stack_name seen w
        = (Again (seen_events sc1),
           sleep 10 (set_logged (scan_log sc1) (fetched delay w))))
  /\ (forall conn stack_name timeout w,
        wait_to_complete conn stack_name timeout w
        = wait_loop (S (passes timeout)) conn stack_name (clock w + timeout) [] w)
  /\ (forall conn stack_name events timeout w,
        (forall n, exists delay,
            describe_stack_events_reply conn stack_name n = (delay, Returned events)) ->
        snd (process_events events {| seen_events := []; scan_log := logged w |})
          = None ->
        (0 < timeout)%Z ->
        exists w',
          wait_to_complete conn stack_name timeout w = Some (Returned false, w')
          /\ logged w'
             = scan_log (fst (process_events events
                                {| seen_events := []; scan_log := logged w |})))
  /\ (forall conn stack_name events timeout w w1,
        (forall n, exists delay,
            describe_stack_events_reply conn stack_name n = (delay, Returned events)) ->
        (forall sc0, snd (process_events events sc0) = None) ->
        (0 < timeout)%Z ->
        wait_to_complete conn stack_name timeout w = Some (Returned false, w1) ->
        exists w2,
          wait_to_complete conn stack_name timeout w1 = Some (Returned false, w2)
          /\ logged w2
             = scan_log (fst (process_events events
                                {| seen_events := []; scan_log := logged w1 |}))).
Proof.
  assert (Whole : forall conn stack_name events timeout w,
             (forall n, exists delay,
                 describe_stack_events_reply conn stack_name n
                 = (delay, Returned events)) ->
             snd (process_events events {| seen_events := []; scan_log := logged w |})
               = None ->
             (0 < timeout)%Z ->
             exists w',
               wait_to_complete conn stack_name timeout w = Some (Returned false, w')
               /\ logged w'
                  = scan_log (fst (process_events events
                                     {| seen_events := []; scan_log := logged w |}))).
  { intros conn stack_name events timeout w Hsame Hnone Ht.
    unfold wait_to_complete. rewrite wait_loop_S.
    destruct (Z.ltb_spec (clock w) (clock w + timeout)); [|lia].
    unfold poll. destruct (Hsame (fetches w)) as [delay R]. rewrite R.
    change (logged (fetched delay w)) with (logged w).
    destruct (process_events events {| seen_events := []; scan_log := logged w |})
      as [sc1 r] eqn:P1.
    cbn [snd] in Hnone. subst r. cbn [fst].
    set (w1 := sleep 10 (set_logged (scan_log sc1) (fetched delay w))).
    pose proof (passes_enough timeout) as Hp.
    destruct (passes timeout) as [|m] eqn:Hm; [lia|].
    destruct (wait_loop_total conn stack_name m (clock w + timeout)%Z
                (seen_events sc1) w1) as [[r w'] E].
    { subst w1. cbn [clock sleep set_logged fetched]. lia. }
    rewrite E.
    destruct (wait_loop_settled conn stack_name events Hsame (S m)
                (clock w + timeout)%Z (seen_events sc1) w1 r w') as [-> L].
    - subst w1. cbn [logged sleep set_logged].
      destruct sc1 as [seen1 log1]. cbn [seen_events scan_log].
      apply process_events_all_seen.
      exact (process_events_none_marks events _ _ P1).
    - exact E.
    - exists w'. split; [reflexivity|]. rewrite L. reflexivity. }
  split; [apply process_event_seen|].
  split; [apply process_event_unseen|].
  split; [|split; [|split; [|split; [|split; [|split; [|split]]]]]].
  - intros between sc'. apply process_event_seen. subst sc'.
    cbn [process_events].
    pose proof (process_event_marks e sc) as Hm.
    destruct (process_event e sc) as [sc1 [b|]]; cbn [fst] in *.
    + exact Hm.
    + apply process_events_keeps, Hm.
  - intros events. apply process_events_skip_known. auto.
  - intros events. apply process_events_grows.
  - intros conn stack_name seen w seen' w' P.
    apply poll_again in P. apply P.
  - intros conn stack_name seen w delay events sc1 R P.
    unfold poll. rewrite R.
    change (logged (fetched delay w)) with (logged w). rewrite P. reflexivity.
  - reflexivity.
  - exact Whole.
  - intros conn stack_name events timeout w w1 Hsame Hnone Ht _.
    apply Whole; [exact Hsame | apply Hnone | exact Ht].
Qed.

(** An event delivered at each of the 60 polls of a wait is logged once,
    and once more by the next call of [wait_to_complete]. *)
Example one_record_for_sixty_deliveries :
  exists w1 w2,
    wait_to_complete (Sample.accepting [Sample.bucket_done; Sample.bucket_failed])
      "web" 600 Sample.boot = Some (Returned false, w1)
    /\ fetches w1 = 60%nat
    /\ logged w1
       = [(INFO, "Created assets");
          (ERROR, "Could not create assets: Bucket name already exists")]
    /\ wait_to_complete (Sample.accepting [Sample.bucket_done; Sample.bucket_failed])
         "web" 600 w1 = Some (Returned false, w2)
    /\ fetches w2 = 120%nat
    /\ logged w2
       = [(INFO, "Created assets");
          (ERROR, "Could not create assets: Bucket name already exists");
          (INFO, "Created assets");
          (ERROR, "Could not create assets: Bucket name already exists")].
Proof.
  eexists. eexists.
  split; [vm_compute; reflexivity|]. split; [reflexivity|]. split; [reflexivity|].
  split; [vm_compute; reflexivity|]. split; reflexivity.
Qed.

(** C4: a rollback ends the wait.  The loop is at its [while] test with
    time left; the batch it fetches is [pre ++ e :: post], where the
    events of [pre] let the [for] loop run on, [e] is not in the seen
    list when its turn comes, and the status of [e] ends with
    ROLLBACK_COMPLETE or ROLLBACK_FAILED.  Then [wait_to_complete]'s loop
    returns [False] in this very pass, without sleeping and without
    another fetch, and what it leaves behind is what the events up to
    [e] produced: [post] plays no part. *)
Theorem rollback_ends_wait (conn : Connection) (stack_name : string)
    (fuel : nat) (deadline : Z) (seen : list string) (w : World)
    (delay : N) (pre post : list StackEvent) (e : StackEvent) (sc : Scan) :
  (clock w < deadline)%Z ->
  describe_stack_events_reply conn stack_name (fetches w)
    = (delay, Returned (pre ++ e :: post)%list) ->
  process_events pre {| seen_events := seen; scan_log := logged w |} = (sc, None) ->
  Str.mem (event_id e) (seen_events sc) = false ->
  Str.endswith (resource_status e) "ROLLBACK_COMPLETE" = true
    \/ Str.endswith (resource_status e) "ROLLBACK_FAILED" = true ->
  exists w',
    wait_loop (S fuel) conn stack_name deadline seen w = Some (Returned false, w')
    /\ fetches w' = S (fetches w)
    /\ sleeps w' = sleeps w
    /\ clock w' = (clock w + Z.of_N delay)%Z
    /\ logged w' = (scan_log sc ++ fst (classify e))%list.
Proof.
  intros Ht E Hpre Hunseen Hs.
  assert (Hc : snd (classify e) = Some false).
  { destruct Hs as [Hs|Hs].
    - rewrite classify_rollback_complete by exact Hs. reflexivity.
    - rewrite classify_rollback_failed by exact Hs. reflexivity. }
  rewrite wait_loop_S. destruct (Z.ltb_spec (clock w) deadline); [|lia].
  unfold poll. rewrite E.
  replace (logged (fetched delay w)) with (logged w) by reflexivity.
  rewrite process_events_app, Hpre. cbn [process_events].
  rewrite process_event_unseen by exact Hunseen. rewrite Hc.
  eexists. split; [reflexivity|]. repeat split.
Qed.

Lemma rollback_ends_wait_witness :
  exists w',
    wait_loop 61 (Sample.accepting
                    [Sample.bucket_done; Sample.rolled_back; Sample.stack_done_literal])
      "web" 600 [] Sample.boot = Some (Returned false, w')
    /\ fetches w' = 1%nat
    /\ sleeps w' = 0%nat
    /\ clock w' = 0%Z
    /\ logged w' = [(INFO, "Created assets"); (ERROR, "Rollback of web completed")].
Proof.
  apply (rollback_ends_wait
           (Sample.accepting
              [Sample.bucket_done; Sample.rolled_back; Sample.stack_done_literal])
           "web" 60 600 [] Sample.boot 0
           [Sample.bucket_done] [Sample.stack_done_literal] Sample.rolled_back
           {| seen_events := ["ev-1"]; scan_log := [(INFO, "Created assets")] |}).
  - reflexivity.
  - reflexivity.
  - reflexivity.
  - reflexivity.
  - left. reflexivity.
Defined.

(** C6: with a budget of 600 and a sleep of 10 per pass, a wait in which
    no fetch fails and no event makes the loop return does end, with
    [False].  By then the clock has reached the start plus 600, the loop
    has fetched 60 times at most and slept once per fetch; where every
    fetch answers at once it has fetched exactly 60 times and the clock
    stands at the start plus 600. *)
Theorem wait_times_out (conn : Connection) (stack_name : string) (w : World) :
  quiet conn stack_name ->
  exists w',
    wait_to_complete conn stack_name 600 w = Some (Returned false, w')
    /\ (clock w + 600 <= clock w')%Z
    /\ (fetches w' <= fetches w + 60)%nat
    /\ (sleeps w' + fetches w = sleeps w + fetches w')%nat
    /\ (punctual conn stack_name ->
        fetches w' = (fetches w + 60)%nat /\ clock w' = (clock w + 600)%Z).
Proof.
  intros Hq. unfold wait_to_complete.
  change (passes 600) with 60%nat.
  destruct (wait_loop_quiet conn stack_name Hq 60 (clock w + 600)%Z [] w ltac:(lia))
    as (w' & E & Hd & _ & Hf & Hs).
  exists w'. split; [exact E|]. split; [exact Hd|]. split; [exact Hf|].
  split; [exact Hs|]. intros Hp.
  destruct (wait_loop_quiet_punctual conn stack_name Hq Hp 60 [] w)
    as (w'' & E' & Hc' & Hf').
  change (10 * Z.of_nat 60)%Z with 600%Z in E', Hc'.
  assert (w'' = w') by congruence. subst w''. split; assumption.
Qed.

Lemma wait_times_out_witness :
  exists w',
    wait_to_complete (Sample.accepting [Sample.bucket_done; Sample.bucket_failed])
      "web" 600 Sample.boot = Some (Returned false, w')
    /\ (clock Sample.boot + 600 <= clock w')%Z
    /\ (fetches w' <= fetches Sample.boot + 60)%nat
    /\ (sleeps w' + fetches Sample.boot = sleeps Sample.boot + fetches w')%nat
    /\ (punctual (Sample.accepting [Sample.bucket_done; Sample.bucket_failed]) "web" ->
        fetches w' = (fetches Sample.boot + 60)%nat
        /\ clock w' = (clock Sample.boot + 600)%Z).
Proof.
  apply (wait_times_out
           (Sample.accepting [Sample.bucket_done; Sample.bucket_failed])
           "web" Sample.boot).
  intros n. exists 0%N. eexists. split; [reflexivity|].
  repeat constructor.
Defined.

Section Creating.
Context `{Host}.
Variable conn : Connection.
Variable stack_name : string.
Variable template : CloudFormationTemplate.
Variable parameters : Params.

(** A fetch that raises ends the loop with that exception. *)
Lemma wait_loop_fetch_raises fuel deadline seen w delay e :
  (clock w < deadline)%Z ->
  describe_stack_events_reply conn stack_name (fetches w) = (delay, Raised e) ->
  wait_loop (S fuel) conn stack_name deadline seen w
  = Some (Raised e, fetched delay w).
Proof.
  intros Ht E. rewrite wait_loop_S.
  destruct (Z.ltb_spec (clock w) deadline); [|lia].
  unfold poll. rewrite E. reflexivity.
Qed.

Lemma wait_first_fetch_raises w delay e :
  describe_stack_events_reply conn stack_name (fetches w) = (delay, Raised e) ->
  wait_to_complete conn stack_name 600 w = Some (Raised e, fetched delay w).
Proof.
  intros F. unfold wait_to_complete. apply wait_loop_fetch_raises; [lia | exact F].
Qed.

(** The handler catches [BotoServerError] and lets the rest through. *)
Lemma create_handler_cases e w :
  (exists message,
      e = BotoServerError message
      /\ create_handler stack_name e w
         = (Returned PyNone,
            set_logged (logged w ++ [rejection stack_name message]) w))
  \/ ((forall message, e <> BotoServerError message)
      /\ create_handler stack_name e w = (Raised e, w)).
Proof.
  destruct e; try (right; split; [discriminate | reflexivity]).
  left. eexists. split; reflexivity.
Qed.

(** Whatever [create_stack] returns is [None]. *)
Lemma create_stack_returns_None w v w' :
  create_stack conn stack_name template parameters w = Some (Returned v, w') ->
  v = PyNone.
Proof.
  unfold create_stack.
  destruct (create_stack_reply conn stack_name _ parameters) as [[]|e].
  - destruct (wait_to_complete conn stack_name 600 _) as [[[b|e] w1]|];
      [| |discriminate].
    + intros E. injection E as <- _. reflexivity.
    + destruct e; cbn; intros E; try discriminate. injection E as <- _. reflexivity.
  - destruct e; cbn; intros E; try discriminate. injection E as <- _. reflexivity.
Qed.

End Creating.

(** C7: a rejected request.  When the provider answers the create
    request with a [BotoServerError], [create_stack] writes one error
    record made of the stack name and the provider's message and comes
    back at once: no event was fetched, the loop never slept and the
    clock did not move.  What it hands back is [None], not [False]: the
    [except] clause has no [return], so the caller gets the value it
    gets from every other path of [create_stack], a creation that went
    through included. *)
Theorem rejected_create_returns_at_once `{Host} (conn : Connection)
    (stack_name : string) (template : CloudFormationTemplate)
    (parameters : Params) (w : World) (message : string) :
  create_stack_reply conn stack_name (json_dumps (get_template_body template)) parameters
    = Raised (BotoServerError message) ->
  exists w',
    create_stack conn stack_name template parameters w = Some (Returned PyNone, w')
    /\ create_stack conn stack_name template parameters w
       <> Some (Returned (PyBool false), w')
    /\ logged w' = (logged (submitted stack_name template parameters w)
                    ++ [rejection stack_name message])%list
    /\ fetches w' = fetches w
    /\ sleeps w' = sleeps w
    /\ clock w' = clock w.
Proof.
  intros E. unfold create_stack. rewrite E. cbn [create_handler].
  eexists. split; [reflexivity|]. split; [discriminate|]. repeat split.
Qed.

Lemma rejected_create_returns_at_once_witness :
  exists w',
    @create_stack Sample.host (Sample.rejecting "Stack [web] already exists")
      "web" Sample.web_template [("Env", "prod")] Sample.boot
      = Some (Returned PyNone, w')
    /\ @create_stack Sample.host (Sample.rejecting "Stack [web] already exists")
         "web" Sample.web_template [("Env", "prod")] Sample.boot
       <> Some (Returned (PyBool false), w')
    /\ logged w' =
         [(INFO, "Creating stack web from template web.json with parameters: Env=prod");
          (ERROR, "Could not create stack web. Cloudformation API response: Stack [web] already exists")]
    /\ fetches w' = 0%nat
    /\ sleeps w' = 0%nat
    /\ clock w' = 0%Z.
Proof.
  apply (@rejected_create_returns_at_once Sample.host
           (Sample.rejecting "Stack [web] already exists")
           "web" Sample.web_template [("Env", "prod")] Sample.boot
           "Stack [web] already exists").
  reflexivity.
Defined.

(** The value after a rejection and the value after a creation that
    went through (the event's type being the literal object) are the
    same [None]. *)
Example rejection_and_success_return_alike :
  option_map fst
    (@create_stack Sample.host (Sample.rejecting "Stack [web] already exists")
       "web" Sample.web_template [("Env", "prod")] Sample.boot)
  = option_map fst
      (@create_stack Sample.host (Sample.accepting [Sample.stack_done_literal])
         "web" Sample.web_template [("Env", "prod")] Sample.boot).
Proof. vm_compute. reflexivity. Qed.

(** C10: no [BotoServerError] leaves [create_stack].  The call always
    comes back, and never with a raised [BotoServerError]; when the
    provider raises one, be it on the create request or on a fetch of
    the waiting loop, [create_stack] returns [None] and the last record
    of its log is the error record with the stack name and the message
    of that exception. *)
Theorem create_stack_suppresses_server_errors `{Host} (conn : Connection)
    (stack_name : string) (template : CloudFormationTemplate)
    (parameters : Params) (w : World) :
  exists r w',
    create_stack conn stack_name template parameters w = Some (r, w')
    /\ (forall message, r <> Raised (BotoServerError message))
    /\ (forall message,
          create_stack_reply conn stack_name
            (json_dumps (get_template_body template)) parameters
            = Raised (BotoServerError message) ->
          r = Returned PyNone
          /\ logged w' = (logged (submitted stack_name template parameters w)
                          ++ [rejection stack_name message])%list)
    /\ (forall message w1,
          create_stack_reply conn stack_name
            (json_dumps (get_template_body template)) parameters
            = Returned tt ->
          wait_to_complete conn stack_name 600
            (submitted stack_name template parameters w)
            = Some (Raised (BotoServerError message), w1) ->
          r = Returned PyNone
          /\ logged w' = (logged w1 ++ [rejection stack_name message])%list)
    /\ (forall message delay,
          create_stack_reply conn stack_name
            (json_dumps (get_template_body template)) parameters
            = Returned tt ->
          describe_stack_events_reply conn stack_name (fetches w)
            = (delay, Raised (BotoServerError message)) ->
          r = Returned PyNone
          /\ logged w' = (logged (submitted stack_name template parameters w)
                          ++ [rejection stack_name message])%list).
Proof.
  unfold create_stack.
  fold (submitted stack_name template parameters w).
  set (w0 := submitted stack_name template parameters w).
  destruct (create_stack_reply conn stack_name _ parameters) as [[]|e] eqn:R.
  - destruct (wait_to_complete_total conn stack_name 600 w0) as [[[b|e] w1] W];
      rewrite W.
    + exists (Returned PyNone), w1. split; [reflexivity|].
      split; [discriminate|]. split; [discriminate|]. split.
      * intros m w2 _ E. discriminate.
      * intros m delay _ F.
        rewrite (wait_first_fetch_raises conn stack_name w0 delay _ F) in W.
        discriminate.
    + destruct (create_handler_cases stack_name e w1) as [(m & -> & ->)|(Hne & ->)].
      * eexists. eexists. split; [reflexivity|].
        split; [discriminate|]. split; [discriminate|]. split.
        -- intros m' w2 _ E. injection E as E1 E2. subst. split; reflexivity.
        -- intros m' delay _ F.
           rewrite (wait_first_fetch_raises conn stack_name w0 delay _ F) in W.
           injection W as W1 W2. subst. split; reflexivity.
      * exists (Raised e), w1. split; [reflexivity|].
        split; [intros m E; injection E as E1; exact (Hne m E1)|].
        split; [discriminate|]. split.
        -- intros m' w2 _ E. injection E as E1 _. exfalso. exact (Hne m' E1).
        -- intros m' delay _ F.
           rewrite (wait_first_fetch_raises conn stack_name w0 delay _ F) in W.
           injection W as W1 _. exfalso. exact (Hne m' (eq_sym W1)).
  - destruct (create_handler_cases stack_name e w0) as [(m & -> & ->)|(Hne & ->)].
    + eexists. eexists. split; [reflexivity|].
      split; [discriminate|]. split; [|split; discriminate].
      intros m' E. injection E as E1. subst. split; reflexivity.
    + exists (Raised e), w0. split; [reflexivity|].
      split; [intros m E; injection E as E1; exact (Hne m E1)|].
      split; [|split; discriminate].
      intros m' E. injection E as E1. exfalso. exact (Hne m' E1).
Qed.

(** ** The template loader *)

Section Loading.

Lemma lower_ascii_inv c d :
  Str.lower_ascii c = d ->
  d = "s"%char \/ d = "3"%char \/ d = ":"%char \/ d = "/"%char ->
  c = d \/ (c = "S"%char /\ d = "s"%char).
Proof.
  intros <- Hd.
  destruct c as [[] [] [] [] [] [] [] []]; vm_compute in Hd |- *;
    try (left; reflexivity); try (right; split; reflexivity);
    exfalso; decompose [or] Hd; discriminate.
Qed.

(** The test of line 31 holds for the locators that begin with
    [s3://] or [S3://], and for no others. *)
Lemma s3_scheme_inv url :
  Str.startswith (Str.lower url) "s3://" = true ->
  exists (upper : bool) rest,
    url = String (if upper then "S" else "s")%char ("3://" ++ rest).
Proof.
  destruct url as [|c1 [|c2 [|c3 [|c4 [|c5 rest]]]]];
    cbn [Str.lower Str.startswith];
    repeat match goal with
           | |- context [Ascii.eqb ?a ?b] =>
               destruct (Ascii.eqb_spec a b); [|discriminate]
           end;
    try discriminate.
  intros _.
  repeat match goal with
         | E : _ = Str.lower_ascii _ |- _ =>
             symmetry in E; apply lower_ascii_inv in E; [|tauto]
         end.
  repeat match goal with
         | E : _ \/ _ |- _ => destruct E as [E|[E E']]; try discriminate
         end; subst.
  - exists false, rest. reflexivity.
  - exists true, rest. reflexivity.
Qed.

End Loading.

(** C8: a locator that begins with [s3://], the [s] in either case, is
    not loaded: [_load_template] raises [NotImplementedError] (the
    spec's UnsupportedLocatorError) after its debug record, whatever the
    file system holds, and no path has been opened. *)
Theorem s3_locator_unsupported `{Host} (fs : FileSystem) (dir : option string)
    (upper : bool) (rest : string) (w : World) :
  let url := String (if upper then "S" else "s")%char ("3://" ++ rest) in
  _load_template fs dir url w
  = (Raised NotImplementedError, log DEBUG ("Working in " ++ getcwd fs) w)
  /\ opened (snd (_load_template fs dir url w)) = opened w.
Proof.
  intros url.
  assert (E : _load_template fs dir url w
              = (Raised NotImplementedError, log DEBUG ("Working in " ++ getcwd fs) w)).
  { unfold _load_template.
    replace (Str.startswith (Str.lower url) "s3://") with true
      by (subst url; destruct upper; vm_compute; reflexivity).
    reflexivity. }
  split; [exact E|]. rewrite E. reflexivity.
Qed.

(** C3: malformed content.  The locator is not an s3 one, the file it
    resolves to can be read, and [json.loads] rejects what was read.
    Then the handler of the [ValueError] fails on [e.strerror] before it
    has logged anything: what leaves [_load_template] is an
    [AttributeError], not the parse error, and the log holds the debug
    record alone, so nothing that was raised or logged names the
    locator. *)
Theorem malformed_template_raises_AttributeError `{Host} (fs : FileSystem)
    (dir : option string) (url : string) (w : World) (content : string) :
  Str.startswith (Str.lower url) "s3://" = false ->
  read_file fs (resolve dir url) = Returned content ->
  json_loads content = None ->
  _load_template fs dir url w
  = (Raised (AttributeError "strerror"),
     open_path (resolve dir url) (log DEBUG ("Working in " ++ getcwd fs) w)).
Proof.
  intros Hs Hr Hj. unfold _load_template. rewrite Hs.
  unfold _fs_get_template. rewrite Hr, Hj. reflexivity.
Qed.

Lemma malformed_template_raises_AttributeError_witness :
  @_load_template Sample.host Sample.files (Some "/etc/cfn") "broken.json" Sample.boot
  = (Raised (AttributeError "strerror"),
     {| clock := 0; logged := [(DEBUG, "Working in /work")];
        opened := ["/etc/cfn/broken.json"]; requests := [];
        fetches := 0; sleeps := 0 |}).
Proof.
  apply (@malformed_template_raises_AttributeError Sample.host Sample.files
           (Some "/etc/cfn") "broken.json" Sample.boot "{"); reflexivity.
Defined.

(** ** The code run on the sample provider *)

(** C2: a stack-level CREATE_COMPLETE event as the provider delivers it.
    The type of [Sample.stack_done] equals the literal but is another
    object, so the [is] of line 111 is false and the event takes the
    branch of an ordinary resource: the loop logs [Created web], polls
    60 times and returns [False] when the 600 have passed. *)
Theorem stack_complete_runs_into_timeout :
  Str.py_eq (resource_type Sample.stack_done) STACK_TYPE = true
  /\ Str.py_is (resource_type Sample.stack_done) STACK_TYPE = false
  /\ Str.endswith (resource_status Sample.stack_done) "CREATE_COMPLETE" = true
  /\ classify Sample.stack_done = ([(INFO, "Created web")], None)
  /\ wait_to_complete (Sample.accepting [Sample.stack_done]) "web" 600 Sample.boot
     = Some (Returned false,
             {| clock := 600; logged := [(INFO, "Created web")]; opened := [];
                requests := []; fetches := 60; sleeps := 60 |}).
Proof.
  repeat split; vm_compute; reflexivity.
Qed.

(** C1: [create_stack] drops what the loop returned.  Where the loop
    returns [False] on a rollback, and where it returns [True] (the
    event's type being the literal object), [create_stack] returns
    [None] all the same. *)
Theorem create_stack_discards_result :
  option_map fst
    (wait_to_complete (Sample.accepting [Sample.rolled_back]) "web" 600 Sample.boot)
  = Some (Returned false)
  /\ option_map fst
       (@create_stack Sample.host (Sample.accepting [Sample.rolled_back])
          "web" Sample.web_template [("Env", "prod")] Sample.boot)
     = Some (Returned PyNone)
  /\ option_map fst
       (wait_to_complete (Sample.accepting [Sample.stack_done_literal])
          "web" 600 Sample.boot)
     = Some (Returned true)
  /\ option_map fst
       (@create_stack Sample.host (Sample.accepting [Sample.stack_done_literal])
          "web" Sample.web_template [("Env", "prod")] Sample.boot)
     = Some (Returned PyNone).
Proof.
  repeat split; vm_compute; reflexivity.
Qed.

(** A fetch that fails in the middle of the wait: the third one. *)
Example create_survives_failing_fetch :
  @create_stack Sample.host (Sample.failing_fetch 2 "Rate exceeded")
    "web" Sample.web_template [("Env", "prod")] Sample.boot
  = Some (Returned PyNone,
          {| clock := 20;
             logged :=
               [(INFO, "Creating stack web from template web.json with parameters: Env=prod");
                (INFO, "Created assets");
                (ERROR, "Could not create stack web. Cloudformation API response: Rate exceeded")];
             opened := [];
             requests := [("web", "{}", [("Env", "prod")])];
             fetches := 3; sleeps := 2 |}).
Proof. vm_compute. reflexivity. Qed.

(** The loader on a well-formed file and on a missing one. *)
Example load_well_formed :
  @_load_template Sample.host Sample.files (Some "/etc/cfn") "web.json" Sample.boot
  = (Returned "{}",
     {| clock := 0; logged := [(DEBUG, "Working in /work")];
        opened := ["/etc/cfn/web.json"]; requests := [];
        fetches := 0; sleeps := 0 |}).
Proof. vm_compute. reflexivity. Qed.

Example load_missing :
  @_load_template Sample.host Sample.files None "nowhere.json" Sample.boot
  = (Raised (IOError "No such file or directory"),
     {| clock := 0;
        logged := [(DEBUG, "Working in /work");
                   (ERROR, "Could not load template from nowhere.json: No such file or directory")];
        opened := ["nowhere.json"]; requests := [];
        fetches := 0; sleeps := 0 |}).
Proof. vm_compute. reflexivity. Qed.

(** * Further properties of the code *)

(** ** The template loader *)

Section LoaderFacts.
Context `{Host}.

Lemma fs_handler_opened path e w :
  opened (snd (fs_handler path e w)) = opened w.
Proof.
  unfold fs_handler. destruct e; cbn; reflexivity.
Qed.

Lemma fs_get_template_opened fs dir path w :
  opened (snd (_fs_get_template fs dir path w))
  = (opened w ++ [resolve dir path])%list.
Proof.
  unfold _fs_get_template.
  destruct (read_file fs (resolve dir path)) as [content|e].
  - destruct (json_loads content); [reflexivity|]. apply fs_handler_opened.
  - apply fs_handler_opened.
Qed.

Lemma fs_handler_not_ValueError path e w msg :
  fst (fs_handler path e w) <> Raised (ValueError msg).
Proof.
  unfold fs_handler. destruct e; cbn; discriminate.
Qed.

End LoaderFacts.

(** A relative locator is read from the configured directory: the one
    path [_load_template] opens is the directory and the locator, with a
    slash between them unless the directory ends with one. *)
Theorem relative_locator_joins_config_dir `{Host} (fs : FileSystem)
    (d url : string) (w : World) :
  Str.startswith (Str.lower url) "s3://" = false ->
  isabs url = false ->
  d <> "" ->
  opened (snd (_load_template fs (Some d) url w))
  = (opened w
     ++ [if Str.endswith d "/" then (d ++ url)%string else (d ++ "/" ++ url)%string])%list.
Proof.
  intros Hs Ha Hd. unfold _load_template. rewrite Hs.
  rewrite fs_get_template_opened. cbn [opened log].
  unfold resolve, dir_truthy, path_join. rewrite Ha. cbn [negb andb].
  destruct (String.eqb_spec d ""); [contradiction|]. cbn [negb orb].
  reflexivity.
Qed.

Lemma relative_locator_joins_config_dir_witness :
  opened (snd (@_load_template Sample.host Sample.files (Some "/etc/cfn")
                 "web.json" Sample.boot))
  = ["/etc/cfn/web.json"].
Proof.
  apply (@relative_locator_joins_config_dir Sample.host Sample.files
           "/etc/cfn" "web.json" Sample.boot);
    [reflexivity | reflexivity | discriminate].
Defined.

(** An absolute locator, and any locator when no directory or an empty
    one is configured, is opened as it is written. *)
Theorem locator_opened_as_written `{Host} (fs : FileSystem)
    (dir : option string) (url : string) (w : World) :
  Str.startswith (Str.lower url) "s3://" = false ->
  isabs url = true \/ dir = None \/ dir = Some "" ->
  opened (snd (_load_template fs dir url w)) = (opened w ++ [url])%list.
Proof.
  intros Hs Hc. unfold _load_template. rewrite Hs.
  rewrite fs_get_template_opened. cbn [opened log].
  unfold resolve. destruct Hc as [Ha|[->| ->]].
  - rewrite Ha. destruct dir; reflexivity.
  - reflexivity.
  - cbn. rewrite andb_false_r. reflexivity.
Qed.

Lemma locator_opened_as_written_witness :
  opened (snd (@_load_template Sample.host Sample.files (Some "/etc/cfn")
                 "/srv/templates/web.json" Sample.boot))
  = ["/srv/templates/web.json"].
Proof.
  apply (@locator_opened_as_written Sample.host Sample.files (Some "/etc/cfn")
           "/srv/templates/web.json" Sample.boot);
    [reflexivity | left; reflexivity].
Defined.

(** A file that cannot be read: the [IOError] of [open] leaves
    [_load_template] as it came, after one error record that holds the
    path tried and the error's [strerror]. *)
Theorem unreadable_template_raises_IOError `{Host} (fs : FileSystem)
    (dir : option string) (url strerror : string) (w : World) :
  Str.startswith (Str.lower url) "s3://" = false ->
  read_file fs (resolve dir url) = Raised (IOError strerror) ->
  exists w',
    _load_template fs dir url w = (Raised (IOError strerror), w')
    /\ logged w'
       = (logged w
          ++ [(DEBUG, ("Working in " ++ getcwd fs)%string);
              (ERROR, ("Could not load template from " ++ resolve dir url
                       ++ ": " ++ strerror)%string)])%list.
Proof.
  intros Hs Hr. unfold _load_template. rewrite Hs.
  unfold _fs_get_template. rewrite Hr. cbn.
  eexists. split; [reflexivity|]. cbn. rewrite <- app_assoc. reflexivity.
Qed.

Lemma unreadable_template_raises_IOError_witness :
  exists w',
    @_load_template Sample.host Sample.files None "nowhere.json" Sample.boot
    = (Raised (IOError "No such file or directory"), w')
    /\ logged w'
       = [(DEBUG, "Working in /work");
          (ERROR, "Could not load template from nowhere.json: No such file or directory")].
Proof.
  apply (@unreadable_template_raises_IOError Sample.host Sample.files None
           "nowhere.json" "No such file or directory" Sample.boot);
    reflexivity.
Defined.

(** A readable file with well-formed content: [_load_template] returns
    what [json.loads] makes of the content, having opened that one file
    and logged its debug record only. *)
Theorem load_returns_parsed_document `{Host} (fs : FileSystem)
    (dir : option string) (url content : string) (doc : Document) (w : World) :
  Str.startswith (Str.lower url) "s3://" = false ->
  read_file fs (resolve dir url) = Returned content ->
  json_loads content = Some doc ->
  _load_template fs dir url w
  = (Returned doc,
     open_path (resolve dir url) (log DEBUG ("Working in " ++ getcwd fs) w)).
Proof.
  intros Hs Hr Hj. unfold _load_template. rewrite Hs.
  unfold _fs_get_template. rewrite Hr, Hj. reflexivity.
Qed.

Lemma load_returns_parsed_document_witness :
  @_load_template Sample.host Sample.files (Some "/etc/cfn") "web.json" Sample.boot
  = (Returned "{}",
     open_path "/etc/cfn/web.json" (log DEBUG "Working in /work" Sample.boot)).
Proof.
  apply (@load_returns_parsed_document Sample.host Sample.files (Some "/etc/cfn")
           "web.json" "{}" "{}" Sample.boot); reflexivity.
Defined.

(** No [ValueError] ever leaves [_load_template]: neither the one of
    [json.loads] nor one raised while reading, since the handler that
    catches them fails on [e.strerror]. *)
Theorem load_never_raises_ValueError `{Host} (fs : FileSystem)
    (dir : option string) (url : string) (w : World) (msg : string) :
  fst (_load_template fs dir url w) <> Raised (ValueError msg).
Proof.
  unfold _load_template.
  destruct (Str.startswith (Str.lower url) "s3://"); [cbn; discriminate|].
  unfold _fs_get_template.
  destruct (read_file fs (resolve dir url)) as [content|e].
  - destruct (json_loads content); [cbn; discriminate|].
    apply fs_handler_not_ValueError.
  - apply fs_handler_not_ValueError.
Qed.

(** A template built with a body that is true as a truth value keeps
    that body and loads nothing: the world is as before, no file was
    opened and nothing logged, whatever the locator is. *)
Theorem given_body_skips_load `{Host} (fs : FileSystem) (template_url : string)
    (b : Document) (dir : option string) (w : World) :
  doc_truthy b = true ->
  exists t,
    new_template fs template_url (Some b) dir w = (Returned t, w)
    /\ get_template_body t = b
    /\ url t = template_url.
Proof.
  intros Hb. unfold new_template. rewrite Hb.
  eexists. split; [reflexivity|]. split; reflexivity.
Qed.

Lemma given_body_skips_load_witness :
  exists t,
    @new_template Sample.host Sample.files "s3://bucket/web.json"
      (Some "{Resources}") None Sample.boot = (Returned t, Sample.boot)
    /\ @get_template_body Sample.host t = "{Resources}"
    /\ @url Sample.host t = "s3://bucket/web.json".
Proof.
  apply (@given_body_skips_load Sample.host Sample.files "s3://bucket/web.json"
           "{Resources}" None Sample.boot).
  reflexivity.
Defined.

(** A body that is false as a truth value (an empty document) counts as
    no body: the template is loaded from its locator, exactly as when no
    body is given, and what the load raises leaves the constructor. *)
Theorem falsy_body_is_loaded `{Host} (fs : FileSystem) (template_url : string)
    (b : Document) (dir : option string) (w : World) :
  doc_truthy b = false ->
  new_template fs template_url (Some b) dir w
  = new_template fs template_url None dir w
  /\ (forall e w',
        _load_template fs dir template_url w = (Raised e, w') ->
        new_template fs template_url (Some b) dir w = (Raised e, w'))
  /\ (forall doc w',
        _load_template fs dir template_url w = (Returned doc, w') ->
        exists t,
          new_template fs template_url (Some b) dir w = (Returned t, w')
          /\ get_template_body t = doc).
Proof.
  intros Hb. unfold new_template. rewrite Hb. split; [reflexivity|]. split.
  - intros e w' ->. reflexivity.
  - intros doc w' ->. eexists. split; reflexivity.
Qed.

Lemma falsy_body_is_loaded_witness :
  @new_template Sample.host Sample.files "/etc/cfn/web.json" (Some "{}") None
    Sample.boot
  = @new_template Sample.host Sample.files "/etc/cfn/web.json" None None
      Sample.boot.
Proof.
  apply (@falsy_body_is_loaded Sample.host Sample.files "/etc/cfn/web.json"
           "{}" None Sample.boot).
  reflexivity.
Defined.

(** ** The [for] loop over a batch *)


(** A batch delivered again is passed over: when the [for] loop has gone
    through a batch without returning, going through the same batch
    again changes neither the seen list nor the log and returns
    nothing.  (Every poll delivers the events of the stack anew.) *)
Theorem redelivered_batch_is_noop (events : list StackEvent) (sc sc' : Scan) :
  process_events events sc = (sc', None) ->
  process_events events sc' = (sc', None).
Proof.
  intros E. apply process_events_all_seen.
  exact (process_events_none_marks events sc sc' E).
Qed.

Lemma redelivered_batch_is_noop_witness :
  process_events [Sample.bucket_done; Sample.bucket_failed; Sample.stack_done]
    {| seen_events := ["ev-1"; "ev-2"; "ev-4"];
       scan_log := [(INFO, "Created assets");
                    (ERROR, "Could not create assets: Bucket name already exists");
                    (INFO, "Created web")] |}
  = ({| seen_events := ["ev-1"; "ev-2"; "ev-4"];
        scan_log := [(INFO, "Created assets");
                     (ERROR, "Could not create assets: Bucket name already exists");
                     (INFO, "Created web")] |}, None).
Proof.
  apply (redelivered_batch_is_noop
           [Sample.bucket_done; Sample.bucket_failed; Sample.stack_done]
           {| seen_events := []; scan_log := [] |}).
  reflexivity.
Defined.

(** The seen list holds no id twice.  Starting from a list without
    repetition, the [for] loop leaves one without repetition; every id
    in it was there before or is the id of an event of the batch; and
    the log has grown by no more records than the list has grown by
    ids: one record at most for each event id. *)
Theorem seen_ids_stay_distinct (events : list StackEvent) (sc : Scan) :
  NoDup (seen_events sc) ->
  let sc' := fst (process_events events sc) in
  NoDup (seen_events sc')
  /\ (forall id, In id (seen_events sc') ->
        In id (seen_events sc) \/ exists e, In e events /\ event_id e = id)
  /\ (length (scan_log sc') + length (seen_events sc)
      <= length (scan_log sc) + length (seen_events sc'))%nat.
Proof.
  revert sc. induction events as [|e rest IH]; intros sc Hnd; cbn zeta.
  - cbn. split; [exact Hnd|]. split; [intros id Hid; left; exact Hid | lia].
  - cbn [process_events].
    destruct (process_event_invariant e sc Hnd) as (N1 & I1 & L1).
    destruct (process_event e sc) as [sc1 [b|]]; cbn [fst] in *.
    + split; [exact N1|]. split; [|exact L1].
      intros id Hid. destruct (I1 id Hid) as [?|?]; [left; assumption|].
      right. exists e. split; [left; reflexivity | assumption].
    + destruct (IH sc1 N1) as (N2 & I2 & L2).
      split; [exact N2|]. split; [|lia].
      intros id Hid. destruct (I2 id Hid) as [Hin|(e' & He' & Hid')].
      * destruct (I1 id Hin) as [?|?]; [left; assumption|].
        right. exists e. split; [left; reflexivity | assumption].
      * right. exists e'. split; [right; exact He' | exact Hid'].
Qed.

Lemma seen_ids_stay_distinct_witness :
  let sc' := fst (process_events
                    [Sample.bucket_done; Sample.bucket_done; Sample.bucket_failed]
                    {| seen_events := ["ev-0"]; scan_log := [] |}) in
  NoDup (seen_events sc')
  /\ (forall id, In id (seen_events sc') ->
        In id ["ev-0"]
        \/ exists e,
             In e [Sample.bucket_done; Sample.bucket_done; Sample.bucket_failed]
             /\ event_id e = id)
  /\ (length (scan_log sc') + 1 <= 0 + length (seen_events sc'))%nat.
Proof.
  apply (seen_ids_stay_distinct
           [Sample.bucket_done; Sample.bucket_done; Sample.bucket_failed]
           {| seen_events := ["ev-0"]; scan_log := [] |}).
  repeat constructor. intros [].
Defined.

(** ** The waiting loop under any provider *)

Section LoopFacts.
Variable conn : Connection.
Variable stack_name : string.

Lemma process_event_log_grows e sc :
  exists new, scan_log (fst (process_event e sc)) = (scan_log sc ++ new)%list.
Proof.
  destruct (Str.mem (event_id e) (seen_events sc)) eqn:Hm.
  - rewrite process_event_seen by exact Hm. exists []. symmetry. apply app_nil_r.
  - rewrite process_event_unseen by exact Hm. eexists. reflexivity.
Qed.

Lemma process_events_log_grows events : forall sc,
  exists new, scan_log (fst (process_events events sc)) = (scan_log sc ++ new)%list.
Proof.
  induction events as [|e rest IH]; intros sc; cbn [process_events].
  - exists []. symmetry. apply app_nil_r.
  - destruct (process_event_log_grows e sc) as [n1 E1].
    destruct (process_event e sc) as [sc1 [b|]]; cbn [fst] in *.
    + exists n1. exact E1.
    + destruct (IH sc1) as [n2 E2]. exists (n1 ++ n2)%list.
      rewrite E2, E1. symmetry. apply app_assoc.
Qed.

(** What a pass leaves alone, and what it can only add to. *)
Lemma poll_frame seen w p w' :
  poll conn stack_name seen w = (p, w') ->
  requests w' = requests w
  /\ opened w' = opened w
  /\ (clock w <= clock w')%Z
  /\ (exists new, logged w' = (logged w ++ new)%list)
  /\ fetches w' = S (fetches w)
  /\ (sleeps w' = sleeps w \/ exists seen', p = Again seen' /\ sleeps w' = S (sleeps w)).
Proof.
  unfold poll.
  destruct (describe_stack_events_reply conn stack_name (fetches w))
    as [delay [events|e]].
  - pose proof (process_events_log_grows events
                  {| seen_events := seen; scan_log := logged (fetched delay w) |}) as G.
    destruct (process_events events _) as [sc [b|]]; cbn [fst scan_log] in G;
      intros E; injection E as <- <-; cbn.
    + split; [reflexivity|]. split; [reflexivity|]. split; [lia|].
      split; [exact G|]. split; [reflexivity|]. left. reflexivity.
    + split; [reflexivity|]. split; [reflexivity|]. split; [lia|].
      split; [exact G|]. split; [reflexivity|].
      right. eexists. split; reflexivity.
  - intros E. injection E as <- <-. cbn.
    split; [reflexivity|]. split; [reflexivity|]. split; [lia|].
    split; [exists []; symmetry; apply app_nil_r|].
    split; [reflexivity|]. left. reflexivity.
Qed.

Lemma wait_loop_frame n : forall deadline seen w,
  (deadline - clock w <= 10 * Z.of_nat n)%Z ->
  exists r w',
    wait_loop (S n) conn stack_name deadline seen w = Some (r, w')
    /\ requests w' = requests w
    /\ opened w' = opened w
    /\ (clock w <= clock w')%Z
    /\ (exists new, logged w' = (logged w ++ new)%list)
    /\ (fetches w' <= fetches w + n)%nat
    /\ (sleeps w' + fetches w <= sleeps w + fetches w')%nat
    /\ (sleeps w + fetches w' <= sleeps w' + fetches w + 1)%nat.
Proof.
  induction n as [|n IH]; intros deadline seen w Hn; rewrite wait_loop_S.
  - destruct (Z.ltb_spec (clock w) deadline); [lia|].
    exists (Returned false), w. repeat split; try lia.
    exists []. symmetry. apply app_nil_r.
  - destruct (Z.ltb_spec (clock w) deadline).
    2:{ exists (Returned false), w. repeat split; try lia.
        exists []. symmetry. apply app_nil_r. }
    destruct (poll conn stack_name seen w) as [p w1] eqn:P.
    pose proof (poll_frame seen w p w1 P) as (Fr & Fo & Fc & [new Fl] & Ff & Fs).
    destruct p as [b|e|seen'].
    + destruct Fs as [Fs|(s & Hs & _)]; [|discriminate].
      exists (Returned b), w1. repeat split; try lia; try assumption.
      exists new. exact Fl.
    + destruct Fs as [Fs|(s & Hs & _)]; [|discriminate].
      exists (Raised e), w1. repeat split; try lia; try assumption.
      exists new. exact Fl.
    + pose proof (poll_again conn stack_name seen w seen' w1 P) as (Hc & _ & _ & Hs & _).
      destruct (IH deadline seen' w1 ltac:(lia))
        as (r & w2 & E & Gr & Go & Gc & [new2 Gl] & Gf & Gs1 & Gs2).
      exists r, w2. rewrite E. repeat split; try lia; try congruence.
      exists (new ++ new2)%list. rewrite Gl, Fl. symmetry. apply app_assoc.
Qed.

(** A batch none of whose events is of the literal type object does not
    make the loop return [True]. *)
Lemma process_events_not_True events : forall sc,
  (forall e, In e events -> Str.py_is (resource_type e) STACK_TYPE = false) ->
  snd (process_events events sc) <> Some true.
Proof.
  induction events as [|e rest IH]; intros sc Hall; cbn [process_events].
  - discriminate.
  - assert (He : snd (process_event e sc) <> Some true).
    { destruct (Str.mem (event_id e) (seen_events sc)) eqn:Hm.
      - rewrite process_event_seen by exact Hm. discriminate.
      - rewrite process_event_unseen by exact Hm. cbn [snd].
        intros C. apply classify_true in C. destruct C as [C _].
        rewrite (Hall e (or_introl eq_refl)) in C. discriminate. }
    destruct (process_event e sc) as [sc1 [b|]]; [exact He|].
    apply IH. intros e' He'. apply Hall. right. exact He'.
Qed.

Lemma wait_loop_not_True
    (Hobj : forall n delay events e,
        describe_stack_events_reply conn stack_name n = (delay, Returned events) ->
        In e events -> Str.py_is (resource_type e) STACK_TYPE = false)
    fuel : forall deadline seen w w',
  wait_loop fuel conn stack_name deadline seen w <> Some (Returned true, w').
Proof.
  induction fuel as [|fuel IH]; intros deadline seen w w'; [discriminate|].
  rewrite wait_loop_S. destruct (clock w <? deadline)%Z; [|discriminate].
  unfold poll.
  destruct (describe_stack_events_reply conn stack_name (fetches w))
    as [delay [events|e]] eqn:R; [|discriminate].
  pose proof (process_events_not_True events
                {| seen_events := seen; scan_log := logged (fetched delay w) |}
                (fun e He => Hobj _ _ _ e R He)) as NT.
  destruct (process_events events _) as [sc [b|]]; cbn [snd] in NT.
  - destruct b; [congruence | discriminate].
  - apply IH.
Qed.

(** [k] passes over batches that do not make the loop return, each
    fetched at once, lead to the [while] test [10 * k] later. *)
Lemma wait_loop_skips k : forall fuel deadline seen w,
  (forall n, (n < k)%nat -> exists events,
      describe_stack_events_reply conn stack_name (fetches w + n) = (0%N, Returned events)
      /\ Forall (fun e => snd (classify e) = None) events) ->
  (clock w + 10 * Z.of_nat k <= deadline + 9)%Z ->
  exists seen' w',
    wait_loop (k + fuel) conn stack_name deadline seen w
    = wait_loop fuel conn stack_name deadline seen' w'
    /\ clock w' = (clock w + 10 * Z.of_nat k)%Z
    /\ fetches w' = (fetches w + k)%nat
    /\ sleeps w' = (sleeps w + k)%nat.
Proof.
  induction k as [|k IH]; intros fuel deadline seen w Hq Ht.
  - exists seen, w. repeat split; lia.
  - change (S k + fuel)%nat with (S (k + fuel)). rewrite wait_loop_S.
    destruct (Z.ltb_spec (clock w) deadline); [|lia].
    destruct (Hq 0%nat ltac:(lia)) as (events & R & Hev).
    rewrite Nat.add_0_r in R.
    destruct (poll conn stack_name seen w) as [p w1] eqn:P.
    assert (exists seen1, p = Again seen1) as [seen1 ->].
    { revert P. unfold poll. rewrite R.
      pose proof (process_events_quiet events
        {| seen_events := seen; scan_log := logged (fetched 0 w) |} Hev) as Q.
      destruct (process_events events _) as [sc [b|]]; cbn in Q; [discriminate|].
      intros E. injection E as <- _. eexists. reflexivity. }
    pose proof (poll_again conn stack_name seen w seen1 w1 P) as (_ & Hc & Hf & Hs & _).
    rewrite R in Hc. cbn [fst Z.of_N] in Hc.
    destruct (IH fuel deadline seen1 w1) as (seen' & w' & E & Hc' & Hf' & Hs').
    + intros n Hn. destruct (Hq (S n) ltac:(lia)) as (ev & R' & Hev').
      exists ev. split; [|exact Hev'].
      rewrite Hf. replace (S (fetches w) + n)%nat with (fetches w + S n)%nat by lia.
      exact R'.
    + lia.
    + exists seen', w'. rewrite E. repeat split; lia.
Qed.

End LoopFacts.

(** The success branch.  The loop is at its [while] test with time
    left; in the batch it fetches, the events before [e] let the [for]
    loop run on, [e] is not in the seen list at its turn, its type is
    the very object of the literal of line 111 and its status ends with
    CREATE_COMPLETE.  Then the loop returns [True] in this pass, without
    sleeping, its last log record being the one for the created stack. *)
Theorem literal_stack_event_ends_wait (conn : Connection) (stack_name : string)
    (fuel : nat) (deadline : Z) (seen : list string) (w : World)
    (delay : N) (pre post : list StackEvent) (e : StackEvent) (sc : Scan) :
  (clock w < deadline)%Z ->
  describe_stack_events_reply conn stack_name (fetches w)
    = (delay, Returned (pre ++ e :: post)%list) ->
  process_events pre {| seen_events := seen; scan_log := logged w |} = (sc, None) ->
  Str.mem (event_id e) (seen_events sc) = false ->
  Str.py_is (resource_type e) STACK_TYPE = true ->
  Str.endswith (resource_status e) "CREATE_COMPLETE" = true ->
  exists w',
    wait_loop (S fuel) conn stack_name deadline seen w = Some (Returned true, w')
    /\ fetches w' = S (fetches w)
    /\ sleeps w' = sleeps w
    /\ logged w'
       = (scan_log sc
          ++ [(INFO, ("Stack " ++ logical_resource_id e ++ " created!")%string)])%list.
Proof.
  intros Ht E Hpre Hunseen Hobj Hs.
  rewrite wait_loop_S. destruct (Z.ltb_spec (clock w) deadline); [|lia].
  unfold poll. rewrite E.
  replace (logged (fetched delay w)) with (logged w) by reflexivity.
  rewrite process_events_app, Hpre. cbn [process_events].
  rewrite process_event_unseen by exact Hunseen.
  unfold classify. rewrite Hobj, Hs. cbn.
  eexists. split; [reflexivity|]. repeat split.
Qed.

Lemma literal_stack_event_ends_wait_witness :
  exists w',
    wait_loop 61 (Sample.accepting [Sample.bucket_done; Sample.stack_done_literal])
      "web" 600 [] Sample.boot = Some (Returned true, w')
    /\ fetches w' = 1%nat
    /\ sleeps w' = 0%nat
    /\ logged w' = [(INFO, "Created assets"); (INFO, "Stack web created!")].
Proof.
  apply (literal_stack_event_ends_wait
           (Sample.accepting [Sample.bucket_done; Sample.stack_done_literal])
           "web" 60 600 [] Sample.boot 0
           [Sample.bucket_done] [] Sample.stack_done_literal
           {| seen_events := ["ev-1"]; scan_log := [(INFO, "Created assets")] |});
    reflexivity.
Defined.

(** [True] needs the literal object.  Against a provider none of whose
    events has the object of the literal as its type, whatever the types
    read, [wait_to_complete] never returns [True]. *)
Theorem wait_True_needs_literal_object (conn : Connection) (stack_name : string)
    (timeout : Z) (w w' : World) :
  (forall n delay events e,
      describe_stack_events_reply conn stack_name n = (delay, Returned events) ->
      In e events -> Str.py_is (resource_type e) STACK_TYPE = false) ->
  wait_to_complete conn stack_name timeout w <> Some (Returned true, w').
Proof.
  intros Hobj. unfold wait_to_complete. apply wait_loop_not_True. exact Hobj.
Qed.

Lemma wait_True_needs_literal_object_witness :
  wait_to_complete (Sample.accepting [Sample.bucket_done; Sample.stack_done])
    "web" 600 Sample.boot
  <> Some (Returned true, Sample.boot).
Proof.
  apply (wait_True_needs_literal_object
           (Sample.accepting [Sample.bucket_done; Sample.stack_done])
           "web" 600 Sample.boot Sample.boot).
  intros n delay events e R He. injection R as _ <-.
  destruct He as [<-|[<-|[]]]; reflexivity.
Defined.

(** A timeout of zero or less: [wait_to_complete] returns [False] at
    once; it fetches nothing, logs nothing and does not sleep. *)
Theorem nonpositive_timeout_returns_at_once (conn : Connection)
    (stack_name : string) (timeout : Z) (w : World) :
  (timeout <= 0)%Z ->
  wait_to_complete conn stack_name timeout w = Some (Returned false, w).
Proof.
  intros Ht. unfold wait_to_complete. rewrite wait_loop_S.
  destruct (Z.ltb_spec (clock w) (clock w + timeout)); [lia | reflexivity].
Qed.

Lemma nonpositive_timeout_returns_at_once_witness :
  wait_to_complete (Sample.accepting [Sample.rolled_back]) "web" 0 Sample.boot
  = Some (Returned false, Sample.boot).
Proof.
  apply (nonpositive_timeout_returns_at_once
           (Sample.accepting [Sample.rolled_back]) "web" 0 Sample.boot).
  lia.
Defined.

(** Whatever the provider does, [wait_to_complete] comes back, with a
    value or with an exception, and by then: it has sent no create
    request and opened no file; the clock has not gone back; the log is
    the old one with records added at its end; it has fetched once per
    started 10 of the timeout at most; and it has slept once per fetch,
    or once less when the last fetch ended the wait. *)
Theorem wait_to_complete_frame (conn : Connection) (stack_name : string)
    (timeout : Z) (w : World) :
  exists r w',
    wait_to_complete conn stack_name timeout w = Some (r, w')
    /\ requests w' = requests w
    /\ opened w' = opened w
    /\ (clock w <= clock w')%Z
    /\ (exists new, logged w' = (logged w ++ new)%list)
    /\ (fetches w' <= fetches w + passes timeout)%nat
    /\ (sleeps w' + fetches w <= sleeps w + fetches w')%nat
    /\ (sleeps w + fetches w' <= sleeps w' + fetches w + 1)%nat.
Proof.
  unfold wait_to_complete. apply wait_loop_frame.
  pose proof (passes_enough timeout). lia.
Qed.

(** A fetch that raises ends the wait with its exception, whichever it
    is: [wait_to_complete] has no handler.  After [k] passes whose
    batches, fetched at once, do not make the loop return, and with
    time left, the exception of fetch [k] leaves [wait_to_complete];
    the loop has then slept [k] times. *)
Theorem fetch_error_leaves_wait (conn : Connection) (stack_name : string)
    (timeout : Z) (w : World) (k : nat) (delay : N) (e : exn) :
  (forall n, (n < k)%nat -> exists events,
      describe_stack_events_reply conn stack_name (fetches w + n) = (0%N, Returned events)
      /\ Forall (fun ev => snd (classify ev) = None) events) ->
  describe_stack_events_reply conn stack_name (fetches w + k) = (delay, Raised e) ->
  (10 * Z.of_nat k < timeout)%Z ->
  exists w',
    wait_to_complete conn stack_name timeout w = Some (Raised e, w')
    /\ fetches w' = (fetches w + k + 1)%nat
    /\ sleeps w' = (sleeps w + k)%nat
    /\ clock w' = (clock w + 10 * Z.of_nat k + Z.of_N delay)%Z.
Proof.
  intros Hq Hr Ht. unfold wait_to_complete.
  pose proof (passes_enough timeout) as Hp.
  replace (S (passes timeout)) with (k + S (passes timeout - k))%nat by lia.
  destruct (wait_loop_skips conn stack_name k (S (passes timeout - k))
              (clock w + timeout)%Z [] w Hq ltac:(lia))
    as (seen' & w1 & E & Hc & Hf & Hs).
  rewrite E. rewrite <- Hf in Hr.
  rewrite (wait_loop_fetch_raises conn stack_name (passes timeout - k)
             (clock w + timeout)%Z seen' w1 delay e ltac:(lia) Hr).
  eexists. split; [reflexivity|].
  unfold fetched. cbn [fetches sleeps clock]. repeat split; lia.
Qed.

Lemma fetch_error_leaves_wait_witness :
  exists w',
    wait_to_complete (SampleEvents.breaking_fetch 2 (OtherError "socket.timeout"))
      "web" 600 Sample.boot = Some (Raised (OtherError "socket.timeout"), w')
    /\ fetches w' = 3%nat
    /\ sleeps w' = 2%nat
    /\ clock w' = 20%Z.
Proof.
  apply (fetch_error_leaves_wait
           (SampleEvents.breaking_fetch 2 (OtherError "socket.timeout"))
           "web" 600 Sample.boot 2 0 (OtherError "socket.timeout")).
  - intros n Hn. exists [Sample.bucket_done]. split.
    + destruct n as [|[|n]]; [reflexivity | reflexivity | lia].
    + repeat constructor.
  - reflexivity.
  - lia.
Defined.

(** ** [create_stack] under any provider *)

(** Only [BotoServerError] is caught.  Any other exception, raised by
    the create request or leaving the waiting loop, leaves
    [create_stack] as it is, and no error record is written for it. *)
Theorem other_errors_leave_create_stack `{Host} (conn : Connection)
    (stack_name : string) (template : CloudFormationTemplate)
    (parameters : Params) (w : World) (e : exn) :
  (forall message, e <> BotoServerError message) ->
  (create_stack_reply conn stack_name (json_dumps (get_template_body template))
     parameters = Raised e ->
   create_stack conn stack_name template parameters w
   = Some (Raised e, submitted stack_name template parameters w))
  /\ (forall w1,
        create_stack_reply conn stack_name (json_dumps (get_template_body template))
          parameters = Returned tt ->
        wait_to_complete conn stack_name 600
          (submitted stack_name template parameters w) = Some (Raised e, w1) ->
        create_stack conn stack_name template parameters w = Some (Raised e, w1)).
Proof.
  intros Hne. unfold create_stack.
  fold (submitted stack_name template parameters w). split.
  - intros ->.
    destruct (create_handler_cases stack_name e
                (submitted stack_name template parameters w))
      as [(m & -> & _)|(_ & ->)]; [destruct (Hne m eq_refl) | reflexivity].
  - intros w1 -> ->.
    destruct (create_handler_cases stack_name e w1)
      as [(m & -> & _)|(_ & ->)]; [destruct (Hne m eq_refl) | reflexivity].
Qed.

Lemma other_errors_leave_create_stack_witness :
  @create_stack Sample.host (SampleEvents.refusing (OtherError "socket.error"))
    "web" Sample.web_template [("Env", "prod")] Sample.boot
  = Some (Raised (OtherError "socket.error"),
          @submitted Sample.host "web" Sample.web_template [("Env", "prod")]
            Sample.boot).
Proof.
  refine (proj1 (@other_errors_leave_create_stack Sample.host
                   (SampleEvents.refusing (OtherError "socket.error"))
                   "web" Sample.web_template [("Env", "prod")] Sample.boot
                   (OtherError "socket.error") _) _).
  - discriminate.
  - reflexivity.
Defined.

(** Every call of [create_stack] comes back and has sent exactly one
    create request: the stack name, the serialised body of the template
    and the parameters as given.  Its first log record announces the
    creation, it opens no file, and it fetches events 60 times at
    most. *)
Theorem create_stack_sends_one_request `{Host} (conn : Connection)
    (stack_name : string) (template : CloudFormationTemplate)
    (parameters : Params) (w : World) :
  exists r w',
    create_stack conn stack_name template parameters w = Some (r, w')
    /\ requests w'
       = (requests w
          ++ [(stack_name, json_dumps (get_template_body template), parameters)])%list
    /\ opened w' = opened w
    /\ (exists rest,
          logged w'
          = (logged w
             ++ (INFO, ("Creating stack " ++ stack_name ++ " from template "
                        ++ url template ++ " with parameters: "
                        ++ str_of_params parameters)%string) :: rest)%list)
    /\ (fetches w' <= fetches w + 60)%nat.
Proof.
  unfold create_stack.
  fold (submitted stack_name template parameters w).
  set (w0 := submitted stack_name template parameters w).
  assert (L0 : forall new,
             (logged w0 ++ new)%list
             = (logged w
                ++ (INFO, ("Creating stack " ++ stack_name ++ " from template "
                           ++ url template ++ " with parameters: "
                           ++ str_of_params parameters)%string) :: new)%list).
  { intros new. subst w0. unfold submitted, send_request, log. cbn [logged].
    rewrite <- app_assoc. reflexivity. }
  destruct (create_stack_reply conn stack_name _ parameters) as [[]|e].
  - destruct (wait_to_complete_frame conn stack_name 600 w0)
      as (r & w1 & W & Fr & Fo & _ & [new Fl] & Ff & _ & _).
    rewrite W. change (passes 600) with 60%nat in Ff.
    destruct r as [b|e].
    + exists (Returned PyNone), w1. split; [reflexivity|].
      split; [exact Fr|]. split; [exact Fo|]. split; [|exact Ff].
      exists new. rewrite Fl. apply L0.
    + destruct (create_handler_cases stack_name e w1) as [(m & -> & ->)|(_ & ->)].
      * eexists. eexists. split; [reflexivity|]. cbn [requests opened logged fetches set_logged].
        split; [exact Fr|]. split; [exact Fo|]. split; [|exact Ff].
        eexists. rewrite Fl, <- app_assoc. apply L0.
      * eexists. eexists. split; [reflexivity|].
        split; [exact Fr|]. split; [exact Fo|]. split; [|exact Ff].
        exists new. rewrite Fl. apply L0.
  - destruct (create_handler_cases stack_name e w0) as [(m & -> & ->)|(_ & ->)].
    + eexists. eexists. split; [reflexivity|]. cbn [requests opened logged fetches set_logged].
      split; [reflexivity|]. split; [reflexivity|]. split; [|subst w0; cbn; lia].
      eexists. apply L0.
    + eexists. eexists. split; [reflexivity|].
      split; [reflexivity|]. split; [reflexivity|]. split; [|subst w0; cbn; lia].
      exists []. etransitivity; [|apply (L0 [])]. symmetry. apply app_nil_r.
Qed.

(** The value of [create_stack], whenever it returns one, is [None]:
    the outcome of the wait does not reach the caller. *)
Theorem create_stack_value_is_None `{Host} (conn : Connection)
    (stack_name : string) (template : CloudFormationTemplate)
    (parameters : Params) (w w' : World) (v : pyvalue) :
  create_stack conn stack_name template parameters w = Some (Returned v, w') ->
  v = PyNone.
Proof.
  apply create_stack_returns_None.
Qed.

Lemma create_stack_value_is_None_witness : PyNone = PyNone.
Proof.
  eapply (@create_stack_value_is_None Sample.host
            (Sample.accepting [Sample.rolled_back])
            "web" Sample.web_template [("Env", "prod")] Sample.boot).
  vm_compute. reflexivity.
Defined.

(** ** The registry of stacks *)

Section RegistryFacts.
Import Registry.

Lemma dict_get_set {V : Type} (k k' : string) (v : V) (d : list (string * V)) :
  dict_get k (dict_set k' v d) = if String.eqb k k' then Some v else dict_get k d.
Proof.
  induction d as [|[k0 v0] d IH]; cbn [dict_set dict_get].
  - reflexivity.
  - destruct (String.eqb_spec k' k0) as [->|Hne]; cbn [dict_get].
    + destruct (String.eqb k k0); reflexivity.
    + rewrite IH. destruct (String.eqb_spec k k0) as [->|_]; [|reflexivity].
      destruct (String.eqb_spec k0 k') as [E|_]; [|reflexivity].
      symmetry in E. contradiction.
Qed.

Lemma dict_set_keys {V : Type} (k : string) (v : V) (d : list (string * V)) :
  (In k (map fst d) -> map fst (dict_set k v d) = map fst d)
  /\ (~ In k (map fst d) -> map fst (dict_set k v d) = (map fst d ++ [k])%list).
Proof.
  induction d as [|[k0 v0] d [IH1 IH2]]; cbn [dict_set map fst].
  - split; [intros [] | reflexivity].
  - destruct (String.eqb_spec k k0) as [->|Hne]; cbn [map fst].
    + split; [reflexivity | intros C; exfalso; apply C; left; reflexivity].
    + split.
      * intros [E|Hin]; [symmetry in E; contradiction|]. rewrite IH1 by exact Hin.
        reflexivity.
      * intros Hn. rewrite IH2; [reflexivity|]. intros C. apply Hn. right. exact C.
Qed.

Lemma find_app {A : Type} (p : A -> bool) (l1 l2 : list A) :
  find p (l1 ++ l2)
  = match find p l1 with
    | Some x => Some x
    | None => find p l2
    end.
Proof.
  induction l1 as [|a l1 IH]; cbn [app find]; [reflexivity|].
  destruct (p a); [reflexivity | exact IH].
Qed.

Lemma stacks_into_get name l : forall d,
  dict_get name (stacks_into l d)
  = match find (fun s => String.eqb name (stack_name s)) (rev l) with
    | Some s => Some (entry_of s)
    | None => dict_get name d
    end.
Proof.
  induction l as [|s l IH]; intros d; cbn [stacks_into fold_left rev find].
  - reflexivity.
  - fold (stacks_into l (dict_set (stack_name s) (entry_of s) d)).
    rewrite IH, find_app. cbn [find].
    destruct (find _ (rev l)); [reflexivity|].
    rewrite dict_get_set. destruct (String.eqb name (stack_name s)); reflexivity.
Qed.

Lemma stacks_into_keys l : forall d,
  NoDup (map fst d) ->
  NoDup (map fst (stacks_into l d))
  /\ (forall k, In k (map fst (stacks_into l d))
                <-> In k (map fst d) \/ In k (map stack_name l))
  /\ (length (stacks_into l d) <= length d + length l)%nat
  /\ (NoDup (map stack_name l) ->
      (forall k, In k (map stack_name l) -> ~ In k (map fst d)) ->
      length (stacks_into l d) = (length d + length l)%nat).
Proof.
  induction l as [|s l IH]; intros d Hnd; cbn [stacks_into fold_left map].
  - split; [exact Hnd|]. split; [intros k; cbn; tauto|]. cbn [length]. split; lia.
  - fold (stacks_into l (dict_set (stack_name s) (entry_of s) d)).
    set (d1 := dict_set (stack_name s) (entry_of s) d).
    destruct (dict_set_keys (stack_name s) (entry_of s) d) as [K1 K2]. fold d1 in K1, K2.
    assert (Hk : forall k, In k (map fst d1) <-> In k (map fst d) \/ stack_name s = k).
    { intros k. destruct (in_dec string_dec (stack_name s) (map fst d)) as [Hin|Hn].
      - rewrite K1 by exact Hin. split; [auto|]. intros [?|<-]; assumption.
      - rewrite K2 by exact Hn. rewrite in_app_iff. cbn. tauto. }
    assert (Hnd1 : NoDup (map fst d1)).
    { destruct (in_dec string_dec (stack_name s) (map fst d)) as [Hin|Hn].
      - rewrite K1 by exact Hin. exact Hnd.
      - rewrite K2 by exact Hn. apply NoDup_app; [exact Hnd | repeat constructor; intros [] |].
        intros x Hx [<-|[]]. contradiction. }
    assert (Hlen : (length d1 <= S (length d))%nat
                   /\ (~ In (stack_name s) (map fst d) -> length d1 = S (length d))).
    { rewrite <- (length_map fst d1), <- (length_map fst d).
      destruct (in_dec string_dec (stack_name s) (map fst d)) as [Hin|Hn].
      - rewrite K1 by exact Hin. split; [lia | contradiction].
      - rewrite K2 by exact Hn. rewrite length_app. cbn [length]. split; lia. }
    destruct (IH d1 Hnd1) as (N & I & L & D).
    split; [exact N|]. split; [|split].
    + intros k. rewrite I, Hk. cbn [In]. tauto.
    + cbn [length]. lia.
    + intros Hs Hdis. inversion Hs as [|? ? Hfresh Hs']; subst.
      rewrite D.
      * destruct Hlen as [_ ->]; [cbn [length]; lia|].
        apply Hdis. left. reflexivity.
      * exact Hs'.
      * intros k Hkl C. apply Hk in C. destruct C as [C|<-].
        -- exact (Hdis k (or_intror Hkl) C).
        -- exact (Hfresh Hkl).
Qed.

End RegistryFacts.

(** The entry under a name is that of the last stack of this name: in
    the dict of [get_stacks_dict], a name no stack has is no key, and a
    name several stacks have holds the parameters and outputs of the one
    listed last, the earlier ones being overwritten. *)
Theorem get_stacks_dict_last_wins (self : Registry.CloudFormation) (name : string) :
  Registry.dict_get name (Registry.get_stacks_dict self)
  = option_map Registry.entry_of
      (find (fun s => String.eqb name (Registry.stack_name s))
            (rev (Registry.iterate (Registry.stacks self)))).
Proof.
  unfold Registry.get_stacks_dict. rewrite stacks_into_get.
  destruct (find _ _); reflexivity.
Qed.

(** The keys of the dict of [get_stacks_dict] are the names of the
    stacks, each once; the dict has as many entries as there are stacks
    when the names differ, and fewer when a name repeats. *)
Theorem get_stacks_dict_keys (self : Registry.CloudFormation) :
  let l := Registry.iterate (Registry.stacks self) in
  let d := Registry.get_stacks_dict self in
  NoDup (map fst d)
  /\ (forall k, In k (map fst d) <-> In k (map Registry.stack_name l))
  /\ (length d <= length l)%nat
  /\ (NoDup (map Registry.stack_name l) -> length d = length l)
  /\ (~ NoDup (map Registry.stack_name l) -> (length d < length l)%nat).
Proof.
  cbn zeta. unfold Registry.get_stacks_dict.
  destruct (stacks_into_keys (Registry.iterate (Registry.stacks self)) [] (NoDup_nil _))
    as (N & I & L & D).
  split; [exact N|]. split; [|split; [|split]].
  - intros k. rewrite I. cbn. tauto.
  - exact L.
  - intros Hs. rewrite D; [reflexivity | exact Hs | intros k _ []].
  - intros Hs.
    destruct (Nat.eq_dec
                (length (Registry.stacks_into
                           (Registry.iterate (Registry.stacks self)) []))
                (length (Registry.iterate (Registry.stacks self)))) as [E|Hne];
      [|cbn [length] in L; lia].
    exfalso. apply Hs.
    apply (NoDup_incl_NoDup (l := map fst (Registry.stacks_into
             (Registry.iterate (Registry.stacks self)) []))).
    + exact N.
    + rewrite !length_map. lia.
    + intros k Hk. apply I in Hk. destruct Hk as [[]|Hk]. exact Hk.
Qed.

(** What a [CloudFormation] object holds.  Whenever [__init__] returns,
    the stacks of the object are a [ResultSet] and its connection is
    the one boto gave for the region.  Stacks handed in and true as a
    truth value are kept, and [describe_stacks] is not called; in place
    of [None] or an empty sequence the object holds what one call of
    [describe_stacks] returned. *)
Theorem init_keeps_a_ResultSet (connect : string -> option Registry.Endpoint)
    (region : string) (given : Registry.pyobj) (t t' : Registry.Trace)
    (self : Registry.CloudFormation) :
  Registry.init connect region given t = (Returned self, t') ->
  Registry.is_ResultSet (Registry.get_stacks self) = true
  /\ connect region = Some (Registry.conn self)
  /\ (Registry.obj_truthy given = true ->
      Registry.get_stacks self = given
      /\ Registry.describes t' = Registry.describes t)
  /\ (Registry.obj_truthy given = false ->
      Registry.describe_stacks_reply (Registry.conn self)
      = Returned (Registry.get_stacks self)
      /\ Registry.describes t' = S (Registry.describes t)).
Proof.
  unfold Registry.init, Registry._load_stacks, Registry.get_stacks.
  destruct (connect region) as [ep|]; [|discriminate].
  destruct (Registry.obj_truthy given); cbn [negb].
  - destruct (Registry.is_ResultSet given) eqn:R; [|discriminate].
    intros E. injection E as <- <-. cbn.
    split; [exact R|]. split; [reflexivity|]. split; [auto | discriminate].
  - destruct (Registry.describe_stacks_reply ep) as [o|e] eqn:D; [|discriminate].
    destruct (Registry.is_ResultSet o) eqn:R; [|discriminate].
    rewrite R. intros E. injection E as <- <-. cbn.
    split; [exact R|]. split; [reflexivity|]. split; [discriminate | auto].
Qed.

Lemma init_keeps_a_ResultSet_witness :
  Registry.is_ResultSet
    (Registry.get_stacks
       {| Registry.conn := SampleRegistry.ireland;
          Registry.stacks :=
            Registry.ResultSet [SampleRegistry.web; SampleRegistry.db] |}) = true.
Proof.
  eapply (init_keeps_a_ResultSet SampleRegistry.connect "eu-west-1"
            (Registry.ResultSet []) SampleRegistry.start).
  vm_compute. reflexivity.
Defined.

(** A region boto has no connection for: [__init__] raises
    [AWSConnectionError] after an error record that names the region,
    and [describe_stacks] is never called, whatever stacks were handed
    in. *)
Theorem init_unknown_region (connect : string -> option Registry.Endpoint)
    (region : string) (given : Registry.pyobj) (t : Registry.Trace) :
  connect region = None ->
  exists t',
    Registry.init connect region given t
    = (Raised (AWSConnectionError "Got None connection object"), t')
    /\ Registry.describes t' = Registry.describes t
    /\ logged (Registry.world t')
       = (logged (Registry.world t)
          ++ [(ERROR, ("Could not connect to cloudformation API in " ++ region
                       ++ ". Invalid region?")%string)])%list.
Proof.
  intros E. unfold Registry.init. rewrite E.
  eexists. split; [reflexivity|]. split; reflexivity.
Qed.

Lemma init_unknown_region_witness :
  exists t',
    Registry.init SampleRegistry.connect "mars-north-1"
      (Registry.ResultSet [SampleRegistry.web]) SampleRegistry.start
    = (Raised (AWSConnectionError "Got None connection object"), t')
    /\ Registry.describes t' = 0%nat
    /\ logged (Registry.world t')
       = [(ERROR, "Could not connect to cloudformation API in mars-north-1. Invalid region?")].
Proof.
  apply (init_unknown_region SampleRegistry.connect "mars-north-1"
           (Registry.ResultSet [SampleRegistry.web]) SampleRegistry.start).
  reflexivity.
Defined.

(** Stacks handed in as a sequence that is not empty and not a
    [ResultSet] fail the assertion of line 74: [__init__] raises
    [AssertionError], having connected and not having called
    [describe_stacks]. *)
Theorem init_rejects_other_sequences (connect : string -> option Registry.Endpoint)
    (region : string) (given : Registry.pyobj) (t : Registry.Trace)
    (ep : Registry.Endpoint) :
  connect region = Some ep ->
  Registry.obj_truthy given = true ->
  Registry.is_ResultSet given = false ->
  exists t',
    Registry.init connect region given t = (Raised Registry.AssertionError, t')
    /\ Registry.describes t' = Registry.describes t.
Proof.
  intros E Ht Hr. unfold Registry.init. rewrite E, Ht, Hr. cbn [negb].
  eexists. split; reflexivity.
Qed.

Lemma init_rejects_other_sequences_witness :
  exists t',
    Registry.init SampleRegistry.connect "eu-west-1"
      (Registry.PlainList [SampleRegistry.web]) SampleRegistry.start
    = (Raised Registry.AssertionError, t')
    /\ Registry.describes t' = 0%nat.
Proof.
  apply (init_rejects_other_sequences SampleRegistry.connect "eu-west-1"
           (Registry.PlainList [SampleRegistry.web]) SampleRegistry.start
           SampleRegistry.ireland); reflexivity.
Defined.

(** The registry on the sample stacks: two stacks of one name. *)
Example stacks_dict_of_repeated_name :
  Registry.get_stacks_dict
    {| Registry.conn := SampleRegistry.ireland;
       Registry.stacks :=
         Registry.ResultSet
           [SampleRegistry.web; SampleRegistry.db; SampleRegistry.web_again] |}
  = [("web", {| Registry.entry_parameters := [("Env", "test")];
                Registry.entry_outputs := [] |});
     ("db", {| Registry.entry_parameters := [("Size", "small")];
               Registry.entry_outputs := [("Host", "db.internal")] |})].
Proof. reflexivity. Qed.
